(** * The query endpoint of the finance backend (src/main.py, [query])

    The handler reads a JSON body [{ "phone": ..., "message": ... }], looks the
    phone up in the finance document and answers the message from a fixed
    chain of keyword rules.  This file embeds the handler as a function in a
    small reader/exception monad and proves the properties the specification
    states about it.

    Modelling conventions.
    - A Python [str] is a [string] of bytes (UTF-8).  [str.lower] and
      [str.strip] are modelled on the ASCII range; bytes above 127 are left
      alone.  On text with a byte above 127 Python does more (it strips
      U+00A0 and lower-cases U+212A to k), so every property below that
      depends on how a phone, a name or a message is stripped or
      lower-cased is stated for ASCII text ([is_ascii]).
    - A Python [int] is a [Z]; a JSON object is a [gmap string _].  CPython
      refuses to turn an integer of more than 4300 digits into text or
      text into such an integer (ValueError): [PyInt.too_long].
    - JSON values are [None], integers and strings; floats, booleans, arrays
      and nested objects inside a record are outside the model.
    - Exceptions are results: [Raise e] is an uncaught Python exception.
    - The other endpoints ([login], [register], [get_mcp], [update_finance])
      and the start-up code are functions in a state monad over the two JSON
      files (module [Server]); page rendering and the health check are not
      modelled. *)

From Stdlib Require Import ZArith NArith Ascii String List DecimalString Lia.
From stdpp Require Import base option strings gmap.
Import ListNotations.

Local Open Scope string_scope.

(* stdpp keeps [simpl] from unfolding string concatenation; the replies are
   literal prefixes followed by computed text, so let it reduce them. *)
#[local] Arguments String.append !s1 s2 : simpl nomatch.

(* ===================================================================== *)
(** ** Python strings *)
(* ===================================================================== *)

Module PyStr.

(** Whitespace as [str.strip()] sees it, in the ASCII range:
    TAB, LF, VT, FF, CR, FS, GS, RS, US and SPACE. *)
Definition isspace (c : ascii) : bool :=
  let n := nat_of_ascii c in
  ((9 <=? n)%nat && (n <=? 13)%nat) || ((28 <=? n)%nat && (n <=? 32)%nat).

Fixpoint lstrip (s : string) : string :=
  match s with
  | EmptyString => EmptyString
  | String c s' => if isspace c then lstrip s' else s
  end.

Fixpoint rstrip (s : string) : string :=
  match s with
  | EmptyString => EmptyString
  | String c s' =>
      match rstrip s' with
      | EmptyString => if isspace c then EmptyString else String c EmptyString
      | t => String c t
      end
  end.

(** [s.strip()] *)
Definition strip (s : string) : string := rstrip (lstrip s).

Definition lower_char (c : ascii) : ascii :=
  let n := nat_of_ascii c in
  if ((65 <=? n)%nat && (n <=? 90)%nat) then ascii_of_nat (n + 32) else c.

(** [s.lower()] *)
Fixpoint lower (s : string) : string :=
  match s with
  | EmptyString => EmptyString
  | String c s' => String (lower_char c) (lower s')
  end.

(** [word in s]: [word] occurs in [s] as a contiguous substring. *)
Fixpoint contains (word s : string) : bool :=
  String.prefix word s
  || match s with
     | EmptyString => false
     | String _ s' => contains word s'
     end.

(** [any(word in message for word in words)] *)
Definition any_in (words : list string) (message : string) : bool :=
  existsb (fun word => contains word message) words.

End PyStr.

(* ===================================================================== *)
(** ** Python integers as text *)
(* ===================================================================== *)

Module PyInt.

(** [str(n)] for [n >= 0]. *)
Definition digits (n : N) : string := NilZero.string_of_uint (N.to_uint n).

(** [str(z)], which is also [f"{z}"]. *)
Definition str (z : Z) : string :=
  (if (z <? 0)%Z then "-" else "") ++ digits (Z.abs_N z).

(** Comma insertion on the digits read from the least significant end:
    a comma follows every full group of three that still has a digit
    after it. *)
Fixpoint group3 (rev_digits : list ascii) : list ascii :=
  match rev_digits with
  | a :: b :: c :: ((_ :: _) as rest) => a :: b :: c :: ","%char :: group3 rest
  | _ => rev_digits
  end.

Definition thousands (ds : string) : string :=
  string_of_list_ascii (rev (group3 (rev (list_ascii_of_string ds)))).

(** [f"{z:,}"] *)
Definition format_comma (z : Z) : string :=
  (if (z <? 0)%Z then "-" else "") ++ thousands (digits (Z.abs_N z)).

(** [sys.int_info.default_max_str_digits]: the most digits an integer may
    have when it is converted to or from decimal text. *)
Definition max_str_digits : Z := 4300.

(** The least magnitude with more digits than that, [10 ^ 4300]. *)
Definition str_limit : Z := Eval vm_compute in (10 ^ 4300)%Z.

(** [z] has more than [max_str_digits] decimal digits: [str(z)], [f"{z}"],
    [f"{z:,}"] and [int(text)] raise ValueError. *)
Definition too_long (z : Z) : bool := (str_limit <=? Z.abs z)%Z.

End PyInt.

(* ===================================================================== *)
(** ** Values, exceptions and the handler monad *)
(* ===================================================================== *)

Inductive value : Type :=
| VNone
| VInt (z : Z)
| VStr (s : string).

Inductive exn : Type := AttributeError | TypeError | ValueError.

Inductive result (A : Type) : Type :=
| Ok (a : A)
| Raise (e : exn).
Arguments Ok {A} a.
Arguments Raise {A} e.

(** [datetime.now()] as the handler uses it: the calendar fields only. *)
Record datetime : Type := {
  year : N; month : N; day : N; hour : N; minute : N; second : N
}.

(** What the handler reads from outside: the finance document on disk
    ([None] when the file is missing or is not JSON) and the clock. *)
Record World : Type := {
  FINANCE_FILE : option (gmap string (gmap string value));
  now : datetime
}.

Definition M (A : Type) : Type := World -> result A.

Definition ret {A} (a : A) : M A := fun _ => Ok a.

Definition bind {A B} (c : M A) (k : A -> M B) : M B :=
  fun w => match c w with
           | Ok a => k a w
           | Raise e => Raise e
           end.

Definition lift {A} (r : result A) : M A := fun _ => r.

Notation "'let*' x ':=' c 'in' k" := (bind c (fun x => k))
  (at level 10, x name, c at level 200, k at level 200, only parsing).

(** A value [json.load] can produce: an integer in the file that is
    [too_long] makes [json.load] raise ValueError. *)
Definition within_limit (v : value) : bool :=
  match v with
  | VInt z => negb (PyInt.too_long z)
  | _ => true
  end.

(** A record [json.load] can produce, and so can [request.get_json]: no
    integer in it is [too_long]. *)
Definition loadable (record : gmap string value) : Prop :=
  map_Forall (fun _ v => within_limit v = true) record.

(** [json.load] accepts the document. *)
Definition json_accepts (doc : gmap string (gmap string value)) : bool :=
  bool_decide (map_Forall (fun _ record =>
                 map_Forall (fun _ v => within_limit v = true) record) doc).

(** What [load_json] returns for the content of a file (lines 41-46): the
    document, or [{}] when the file is missing, is not JSON, or holds an
    integer that [json.load] refuses. *)
Definition json_load (content : option (gmap string (gmap string value)))
  : gmap string (gmap string value) :=
  match content with
  | Some doc => if json_accepts doc then doc else ∅
  | None => ∅
  end.

(** [load_json(path)]: the parsed document, or [{}] on any failure. *)
Definition load_json (path : World -> option (gmap string (gmap string value)))
  : M (gmap string (gmap string value)) :=
  fun w => Ok (json_load (path w)).

(** [datetime.now()] *)
Definition datetime_now : M datetime := fun w => Ok (now w).

(* ===================================================================== *)
(** ** The Python operations the handler applies to values *)
(* ===================================================================== *)

(** Truth value of [v] in a boolean context. *)
Definition truthy (v : value) : bool :=
  match v with
  | VNone => false
  | VInt z => negb (z =? 0)%Z
  | VStr s => negb (String.eqb s "")
  end.

(** [a or b] *)
Definition py_or (a b : value) : value := if truthy a then a else b.

(** [d.get(key)] *)
Definition dict_get (d : gmap string value) (key : string) : value :=
  default VNone (d !! key).

(** [d.get(key, dflt)] *)
Definition dict_get_default (d : gmap string value) (key : string) (dflt : value) : value :=
  default dflt (d !! key).

(** [v.strip()] *)
Definition call_strip (v : value) : result string :=
  match v with
  | VStr s => Ok (PyStr.strip s)
  | _ => Raise AttributeError
  end.

(** [v.lower()] *)
Definition call_lower (v : value) : result string :=
  match v with
  | VStr s => Ok (PyStr.lower s)
  | _ => Raise AttributeError
  end.

(** [v is None] *)
Definition is_none (v : value) : bool :=
  match v with VNone => true | _ => false end.

(** [v == 0] *)
Definition eq_zero (v : value) : bool :=
  match v with VInt z => (z =? 0)%Z | _ => false end.

(** [f"{v:,}"]: only numbers accept the [,] format, and an integer only
    when it is not [too_long]. *)
Definition fmt_comma (v : value) : result string :=
  match v with
  | VInt z => if PyInt.too_long z then Raise ValueError
              else Ok (PyInt.format_comma z)
  | VStr _ => Raise ValueError
  | VNone => Raise TypeError
  end.

(** [f"{v}"] *)
Definition fmt_plain (v : value) : result string :=
  match v with
  | VInt z => if PyInt.too_long z then Raise ValueError else Ok (PyInt.str z)
  | VStr s => Ok s
  | VNone => Ok "None"
  end.

(** [a + b] *)
Definition py_add (a b : value) : result value :=
  match a, b with
  | VInt x, VInt y => Ok (VInt (x + y))
  | VStr x, VStr y => Ok (VStr (x ++ y))
  | _, _ => Raise TypeError
  end.

(** [a - b] *)
Definition py_sub (a b : value) : result value :=
  match a, b with
  | VInt x, VInt y => Ok (VInt (x - y))
  | _, _ => Raise TypeError
  end.

(** [v < 0] *)
Definition py_lt_zero (v : value) : result bool :=
  match v with
  | VInt z => Ok (z <? 0)%Z
  | _ => Raise TypeError
  end.

(** [abs(v)] *)
Definition py_abs (v : value) : result value :=
  match v with
  | VInt z => Ok (VInt (Z.abs z))
  | _ => Raise TypeError
  end.

(** [dt.strftime('%Y-%m-%d %H:%M:%S')].  Every field is zero-padded decimal:
    four digits for the year, two for the others. *)
Definition digit_char (n : N) : ascii := ascii_of_N (48 + n mod 10).

Definition two_digits (n : N) : string :=
  String (digit_char (n / 10)) (String (digit_char n) EmptyString).

Definition four_digits (n : N) : string :=
  String (digit_char (n / 1000)) (String (digit_char (n / 100))
    (String (digit_char (n / 10)) (String (digit_char n) EmptyString))).

Definition strftime (dt : datetime) : string :=
  four_digits (year dt) ++ "-" ++ two_digits (month dt) ++ "-" ++ two_digits (day dt)
  ++ " " ++ two_digits (hour dt) ++ ":" ++ two_digits (minute dt) ++ ":"
  ++ two_digits (second dt).

(** The double-quote character, as a one-character string. *)
Definition dquote : string := String (ascii_of_nat 34) EmptyString.

(* ===================================================================== *)
(** ** The handler *)
(* ===================================================================== *)

(** [query()], lines 176-250.  [body] is [request.get_json(force=True,
    silent=True)]: [None] when the body is not JSON.  The result is the
    string under ["reply"] of the JSON answer. *)
Definition query (body : option (gmap string value)) : M string :=
  let data := default ∅ body in
  let* phone := lift (call_strip (py_or (dict_get data "phone") (VStr ""))) in
  let* message := lift (call_lower (py_or (dict_get data "message") (VStr ""))) in
  if negb (truthy (VStr message)) then
    ret "I didn't get that. Please send a message."
  else
    let* finances := load_json FINANCE_FILE in
    let user_fin := default ∅ (finances !! phone) in
    if PyStr.any_in ["balance"; "bank"; "savings"] message then
      let bal := dict_get user_fin "bank_balance" in
      if is_none bal then
        ret "I don't have your bank balance information."
      else
        let* amount := lift (fmt_comma bal) in
        ret ("Your bank balance is ₹" ++ amount ++ ".")
    else if PyStr.any_in ["mutual"; "mf"; "fund"] message then
      let mf := dict_get user_fin "mutual_funds" in
      if is_none mf then
        ret "I don't have mutual funds information for you."
      else
        let* amount := lift (fmt_comma mf) in
        ret ("Your mutual funds are worth ₹" ++ amount ++ ".")
    else if PyStr.any_in ["stock"; "equity"; "shares"] message then
      let s := dict_get user_fin "stocks" in
      if is_none s then
        ret "I don't have stock holdings information for you."
      else
        let* amount := lift (fmt_comma s) in
        ret ("Your stock holdings are worth ₹" ++ amount ++ ".")
    else if PyStr.any_in ["loan"; "debt"; "liability"; "liabilities"] message then
      let loan := dict_get user_fin "loan" in
      if is_none loan then
        ret "I don't have loan / liability details for you."
      else if eq_zero loan then
        ret "You have no active loans or liabilities."
      else
        let* amount := lift (fmt_comma loan) in
        ret ("Your current loan is ₹" ++ amount ++ ".")
    else if PyStr.any_in ["credit"; "cibil"; "score"] message then
      let cs := dict_get user_fin "credit_score" in
      if is_none cs then
        ret "Your credit score is not available."
      else
        let* score := lift (fmt_plain cs) in
        ret ("Your credit score is " ++ score ++ ".")
    else if PyStr.any_in ["net worth"; "total worth"; "networth"; "worth"] message then
      let bank := dict_get_default user_fin "bank_balance" (VInt 0) in
      let mf := dict_get_default user_fin "mutual_funds" (VInt 0) in
      let stocks := dict_get_default user_fin "stocks" (VInt 0) in
      let loan := dict_get_default user_fin "loan" (VInt 0) in
      let* bank_mf := lift (py_add bank mf) in
      let* total_assets := lift (py_add bank_mf stocks) in
      let* total_net_worth := lift (py_sub total_assets loan) in
      let* negative := lift (py_lt_zero total_net_worth) in
      if negative : bool then
        let* magnitude := lift (py_abs total_net_worth) in
        let* amount := lift (fmt_comma magnitude) in
        ret ("Your liabilities exceed your assets by ₹" ++ amount ++ ".")
      else
        let* amount := lift (fmt_comma total_net_worth) in
        ret ("Your total net worth is ₹" ++ amount ++ ".")
    else
      let* t := datetime_now in
      ret ("I am still Learning, I don't have information about it. " ++ dquote
           ++ message ++ dquote ++ " — (server time: " ++ strftime t ++ ")").

(** The JSON body [{"phone": phone, "message": message}]. *)
Definition request (phone message : string) : option (gmap string value) :=
  Some (<["phone" := VStr phone]> (<["message" := VStr message]> ∅)).

(** The record the handler answers from (lines 190-191):
    [load_json(FINANCE_FILE).get(phone, {})] for the stripped phone. *)
Definition get_financial_record (phone : string) (w : World) : gmap string value :=
  default ∅ (json_load (FINANCE_FILE w) !! PyStr.strip phone).

(** Every field that is present holds an integer. *)
Definition int_record (d : gmap string value) : Prop :=
  forall key v, d !! key = Some v -> exists z, v = VInt z.

(* ===================================================================== *)
(** ** The rule chain in table form *)
(* ===================================================================== *)

(** The chain of [if any(...)] tests of [query], read as the table of
    section 4.1 of the specification: six topics in priority order, each
    with its trigger words, the field it reports and its replies.  This is
    the vocabulary the properties are stated in; [query] is related to it
    by [query_respond] below. *)
Module Rules.

Inductive topic : Type :=
| BankBalance | MutualFunds | Stocks | Loan | CreditScore | NetWorth.

Definition triggers (t : topic) : list string :=
  match t with
  | BankBalance => ["balance"; "bank"; "savings"]
  | MutualFunds => ["mutual"; "mf"; "fund"]
  | Stocks => ["stock"; "equity"; "shares"]
  | Loan => ["loan"; "debt"; "liability"; "liabilities"]
  | CreditScore => ["credit"; "cibil"; "score"]
  | NetWorth => ["net worth"; "total worth"; "networth"; "worth"]
  end.

Definition priority (t : topic) : nat :=
  match t with
  | BankBalance => 1 | MutualFunds => 2 | Stocks => 3
  | Loan => 4 | CreditScore => 5 | NetWorth => 6
  end.

Definition table : list topic :=
  [BankBalance; MutualFunds; Stocks; Loan; CreditScore; NetWorth].

(** The rule of [t] matches: the message contains one of its triggers. *)
Definition matches (message : string) (t : topic) : bool :=
  PyStr.any_in (triggers t) message.

(** First match in table order. *)
Definition classify (message : string) : option topic :=
  find (matches message) table.

(** The record of the data model: five optional integers. *)
Record FinancialRecord : Type := {
  bank_balance : option Z;
  mutual_funds : option Z;
  stocks : option Z;
  loan : option Z;
  credit_score : option Z
}.

(** The key a single-field rule reads. *)
Definition field_name (t : topic) : string :=
  match t with
  | BankBalance => "bank_balance"
  | MutualFunds => "mutual_funds"
  | Stocks => "stocks"
  | Loan => "loan"
  | CreditScore => "credit_score"
  | NetWorth => EmptyString
  end.

Definition field (t : topic) (r : FinancialRecord) : option Z :=
  match t with
  | BankBalance => bank_balance r
  | MutualFunds => mutual_funds r
  | Stocks => stocks r
  | Loan => loan r
  | CreditScore => credit_score r
  | NetWorth => None
  end.

(** The reply of a single-field rule whose field is absent. *)
Definition unavailable (t : topic) : string :=
  match t with
  | BankBalance => "I don't have your bank balance information."
  | MutualFunds => "I don't have mutual funds information for you."
  | Stocks => "I don't have stock holdings information for you."
  | Loan => "I don't have loan / liability details for you."
  | CreditScore => "Your credit score is not available."
  | NetWorth => EmptyString
  end.

(** An amount of money: the rupee sign, then the grouped digits. *)
Definition rupees (v : Z) : string := "₹" ++ PyInt.format_comma v.

(** The reply of a single-field rule whose field holds [v]. *)
Definition available (t : topic) (v : Z) : string :=
  match t with
  | BankBalance => "Your bank balance is " ++ rupees v ++ "."
  | MutualFunds => "Your mutual funds are worth " ++ rupees v ++ "."
  | Stocks => "Your stock holdings are worth " ++ rupees v ++ "."
  | Loan =>
      if (v =? 0)%Z then "You have no active loans or liabilities."
      else "Your current loan is " ++ rupees v ++ "."
  | CreditScore => "Your credit score is " ++ PyInt.str v ++ "."
  | NetWorth => EmptyString
  end.

(** What a money reply says before the amount. *)
Definition money_lead (t : topic) : string :=
  match t with
  | BankBalance => "Your bank balance is "
  | MutualFunds => "Your mutual funds are worth "
  | Stocks => "Your stock holdings are worth "
  | Loan => "Your current loan is "
  | _ => EmptyString
  end.

(** Net worth with absent fields counted as 0. *)
Definition net_worth (r : FinancialRecord) : Z :=
  (default 0 (bank_balance r) + default 0 (mutual_funds r)
   + default 0 (stocks r) - default 0 (loan r))%Z.

Definition net_worth_reply (r : FinancialRecord) : string :=
  if (net_worth r <? 0)%Z then
    "Your liabilities exceed your assets by " ++ rupees (Z.abs (net_worth r)) ++ "."
  else
    "Your total net worth is " ++ rupees (net_worth r) ++ ".".

Definition reply_of (t : topic) (r : FinancialRecord) : string :=
  match t with
  | NetWorth => net_worth_reply r
  | _ => match field t r with
         | None => unavailable t
         | Some v => available t v
         end
  end.

(** The reply when no rule matches: [echo] between double quotes, then
    the timestamp. *)
Definition fallback (echo : string) (t : datetime) : string :=
  "I am still Learning, I don't have information about it. " ++ dquote
  ++ echo ++ dquote ++ " — (server time: " ++ strftime t ++ ")".

Definition prompt : string := "I didn't get that. Please send a message.".

Definition respond (message : string) (r : FinancialRecord) (t : datetime) : string :=
  match classify message with
  | Some topic => reply_of topic r
  | None => fallback message t
  end.

End Rules.

(** The integer under [key], if there is one. *)
Definition int_field (d : gmap string value) (key : string) : option Z :=
  match d !! key with
  | Some (VInt z) => Some z
  | _ => None
  end.

(** The record of the data model that a dictionary of integers stands for. *)
Definition record_of (d : gmap string value) : Rules.FinancialRecord :=
  {| Rules.bank_balance := int_field d "bank_balance";
     Rules.mutual_funds := int_field d "mutual_funds";
     Rules.stocks := int_field d "stocks";
     Rules.loan := int_field d "loan";
     Rules.credit_score := int_field d "credit_score" |}.

(* ===================================================================== *)
(** ** The starter data *)
(* ===================================================================== *)

(** The record written to a fresh [finance.json] (lines 27-38). *)
Definition starter_record : gmap string value :=
  <["bank_balance" := VInt 850000]> (<["mutual_funds" := VInt 600000]>
  (<["stocks" := VInt 400000]> (<["loan" := VInt 300000]>
  (<["credit_score" := VInt 820]> ∅)))).

Definition starter_phone : string := "9823533097".

Definition starter_finance : gmap string (gmap string value) :=
  <[starter_phone := starter_record]> ∅.

Definition noon : datetime :=
  {| year := 2024; month := 1; day := 15; hour := 12; minute := 0; second := 0 |}.

Definition midnight : datetime :=
  {| year := 2025; month := 12; day := 31; hour := 0; minute := 0; second := 0 |}.

(** A world with the starter document on disk. *)
Definition starter_world (t : datetime) : World :=
  {| FINANCE_FILE := Some starter_finance; now := t |}.

(** The largest integer that can be stored and read back: 4300 nines. *)
Definition largest_int : Z := (PyInt.str_limit - 1)%Z.

(** A world whose document holds just [d] for [starter_phone]. *)
Definition world_with (d : gmap string value) (t : datetime) : World :=
  {| FINANCE_FILE := Some (<[starter_phone := d]> ∅); now := t |}.

(** Two stored amounts of 4300 digits each. *)
Definition rich_record : gmap string value :=
  <["bank_balance" := VInt largest_int]> (<["mutual_funds" := VInt largest_int]> ∅).

(* ===================================================================== *)
(** ** The handlers that read and write the two documents *)
(* ===================================================================== *)

(** [login], [register], [get_mcp] and [update_finance] work on two JSON
    files: the users document (phone -> the registration body) and the
    finance document (phone -> record).  The handlers are functions in a
    state monad over the disk; an exception leaves the disk as it was when
    it was raised.  A [Document] stands for a file that [json.load] reads
    back: what these handlers write is what [request.get_json] gave them,
    which holds no integer that is [too_long].  Where a property relates
    these handlers to [query], which may be run on any document, it asks
    for a document that [json_accepts] and for [loadable] updates. *)
Module Server.

Inductive path : Type := USERS_FILE | FINANCE_FILE.

(** What is at a path: nothing, bytes that [json.load] rejects, or a
    document. *)
Inductive file : Type :=
| Missing
| Unreadable
| Document (doc : gmap string (gmap string value)).

Record Disk : Type := { users_file : file; finance_file : file }.

Definition read (p : path) (d : Disk) : file :=
  match p with
  | USERS_FILE => users_file d
  | FINANCE_FILE => finance_file d
  end.

Definition write (p : path) (f : file) (d : Disk) : Disk :=
  match p with
  | USERS_FILE => {| users_file := f; finance_file := finance_file d |}
  | FINANCE_FILE => {| users_file := users_file d; finance_file := f |}
  end.

Definition H (A : Type) : Type := Disk -> result A * Disk.

Definition ret {A} (a : A) : H A := fun d => (Ok a, d).

Definition bind {A B} (c : H A) (k : A -> H B) : H B :=
  fun d => match c d with
           | (Ok a, d') => k a d'
           | (Raise e, d') => (Raise e, d')
           end.

Definition lift {A} (r : result A) : H A := fun d => (r, d).

Notation "'let!' x ':=' c 'in' k" := (bind c (fun x => k))
  (at level 10, x name, c at level 200, k at level 200, only parsing).

(** [load_json(path)], lines 41-46: [{}] when the file cannot be opened or
    parsed. *)
Definition load_json (p : path) : H (gmap string (gmap string value)) :=
  fun d => (Ok (match read p d with
                | Document doc => doc
                | _ => ∅
                end), d).

(** [save_json(path, data)], lines 48-50. *)
Definition save_json (p : path) (data : gmap string (gmap string value)) : H unit :=
  fun d => (Ok tt, write p (Document data) d).

(** The users and the finance document written at start-up. *)
Definition starter_users : gmap string (gmap string value) :=
  <["9823533097" := <["name" := VStr "Demo User"]> (<["password" := VStr "demo123"]> ∅)]> ∅.

(** Lines 19-38: each starter file is written only where no file exists. *)
Definition startup (d : Disk) : Disk :=
  let d1 := match read USERS_FILE d with
            | Missing => write USERS_FILE (Document starter_users) d
            | _ => d
            end in
  match read FINANCE_FILE d1 with
  | Missing => write FINANCE_FILE (Document starter_finance) d1
  | _ => d1
  end.

(** What a handler hands to [jsonify]: a value, a boolean, a dictionary
    taken from a document, or an object literal. *)
#[warnings="-register-all"]
Inductive json : Type :=
| JValue (v : value)
| JBool (b : bool)
| JDict (d : gmap string value)
| JObject (fields : list (string * json)).

(** What a handler returns: a text with its status, or [jsonify(...)] with
    its status (200 where the code gives none). *)
Inductive response : Type :=
| Text (body : string) (status : nat)
| Jsonify (body : json) (status : nat).

(** [a == b] *)
Definition value_eqb (a b : value) : bool :=
  match a, b with
  | VNone, VNone => true
  | VInt x, VInt y => (x =? y)%Z
  | VStr x, VStr y => String.eqb x y
  | _, _ => false
  end.

(** [not user] for [user = users.get(phone)]: no entry, or an empty one. *)
Definition not_user (user : option (gmap string value)) : bool :=
  match user with
  | None => true
  | Some u => bool_decide (u = ∅)
  end.

(** [login()], lines 90-107. *)
Definition login (body : option (gmap string value)) : H response :=
  let data := default ∅ body in
  let! phone := lift (call_strip (py_or (dict_get data "phone") (VStr ""))) in
  let password := py_or (dict_get data "password") (VStr "") in
  if negb (truthy (VStr phone)) || negb (truthy password) then
    ret (Text "Missing phone or password" 400)
  else
    let! users := load_json USERS_FILE in
    let user := users !! phone in
    if not_user user
       || negb (value_eqb (dict_get (default ∅ user) "password") password) then
      ret (Text "Invalid credentials" 401)
    else
      let! finances := load_json FINANCE_FILE in
      let finance := default ∅ (finances !! phone) in
      ret (Jsonify
             (JObject [("success", JBool true);
                       ("user", JObject [("phone", JValue (VStr phone));
                                         ("name", JValue (dict_get (default ∅ user) "name"))]);
                       ("finance", JDict finance)])
             200).

(** The record [register] gives a phone that has none. *)
Definition blank_finance : gmap string value :=
  <["bank_balance" := VInt 0]> (<["mutual_funds" := VInt 0]>
  (<["stocks" := VInt 0]> (<["loan" := VInt 0]>
  (<["credit_score" := VInt 0]> ∅)))).

(** [d.setdefault(key, dflt)], for its effect on [d]. *)
Definition setdefault {A} (key : string) (dflt : A) (d : gmap string A) : gmap string A :=
  match d !! key with
  | Some _ => d
  | None => <[key := dflt]> d
  end.

(** [register()], lines 110-140. *)
Definition register (body : option (gmap string value)) : H response :=
  let data := default ∅ body in
  let! name := lift (call_strip (py_or (dict_get data "name") (VStr ""))) in
  let! phone := lift (call_strip (py_or (dict_get data "phone") (VStr ""))) in
  let password := py_or (dict_get data "password") (VStr "") in
  if negb (truthy (VStr name)) || negb (truthy (VStr phone)) || negb (truthy password) then
    ret (Text "Missing name/phone/password" 400)
  else
    let! users := load_json USERS_FILE in
    if bool_decide (is_Some (users !! phone)) then
      ret (Jsonify (JObject [("success", JBool false);
                             ("message", JValue (VStr "Phone already registered"))])
             409)
    else
      let! _ := save_json USERS_FILE (<[phone := data]> users) in
      let! finances := load_json FINANCE_FILE in
      let! _ := save_json FINANCE_FILE (setdefault phone blank_finance finances) in
      ret (Jsonify (JObject [("success", JBool true);
                             ("message", JValue (VStr "Registered successfully"))])
             200).

(** [get_mcp(phone)], lines 144-152. *)
Definition get_mcp (phone : string) : H response :=
  let phone := PyStr.strip phone in
  let! finances := load_json FINANCE_FILE in
  match finances !! phone with
  | None => ret (Jsonify (JDict ∅) 200)
  | Some entry => ret (Jsonify (JDict entry) 200)
  end.

(** The loop of lines 169-170: [for k, v in updates.items(): entry[k] = v]. *)
Definition merge_updates (updates entry : gmap string value) : gmap string value :=
  map_fold (fun k v acc => <[k := v]> acc) entry updates.

(** [update_finance(phone)], lines 155-173. *)
Definition update_finance (phone : string) (body : option (gmap string value)) : H response :=
  let phone := PyStr.strip phone in
  let updates := default ∅ body in
  if bool_decide (updates = ∅) then
    ret (Text "No data provided" 400)
  else
    let! finances := load_json FINANCE_FILE in
    let entry := merge_updates updates (default ∅ (finances !! phone)) in
    let! _ := save_json FINANCE_FILE (<[phone := entry]> finances) in
    ret (Jsonify (JObject [("success", JBool true); ("finance", JDict entry)]) 200).

End Server.

(** What [query] sees of a disk at time [t]. *)
Definition world_of (d : Server.Disk) (t : datetime) : World :=
  {| FINANCE_FILE := match Server.finance_file d with
                     | Server.Document doc => Some doc
                     | _ => None
                     end;
     now := t |}.

(** The documents a disk holds, as [load_json] reads them. *)
Definition users_of (d : Server.Disk) : gmap string (gmap string value) :=
  match Server.users_file d with Server.Document doc => doc | _ => ∅ end.

Definition finances_of (d : Server.Disk) : gmap string (gmap string value) :=
  match Server.finance_file d with Server.Document doc => doc | _ => ∅ end.

(** The body of a registration or a login. *)
Definition credentials (name phone password : value) : option (gmap string value) :=
  Some (<["name" := name]> (<["phone" := phone]> (<["password" := password]> ∅))).

(* ===================================================================== *)
(** ** Shapes of text *)
(* ===================================================================== *)

(** The predicates the properties below are stated with. *)

Definition is_digit (c : ascii) : bool :=
  let n := nat_of_ascii c in ((48 <=? n)%nat && (n <=? 57)%nat).

Definition is_comma (c : ascii) : bool := Ascii.eqb c ","%char.

(** Every character of [s] satisfies [p]. *)
Fixpoint all_chars (p : ascii -> bool) (s : string) : bool :=
  match s with
  | EmptyString => true
  | String c s' => p c && all_chars p s'
  end.

(** [s] is ASCII text: no byte above 127.  On such text [PyStr.strip] and
    [PyStr.lower] are Python's [str.strip] and [str.lower]. *)
Definition is_ascii (s : string) : bool :=
  all_chars (fun c => (nat_of_ascii c <? 128)%nat) s.

(** A text starts clean when it is empty or its first character is not
    whitespace. *)
Definition starts_clean (s : string) : Prop :=
  match s with
  | EmptyString => True
  | String c _ => PyStr.isspace c = false
  end.

(** [s] without its commas. *)
Fixpoint ungroup (s : string) : string :=
  match s with
  | EmptyString => EmptyString
  | String c s' => if is_comma c then ungroup s' else String c (ungroup s')
  end.

(** Reading from the right end: groups of exactly three digits, each
    followed by a comma, then a leading group of one to three digits.
    [k] counts the digits of the group being read. *)
Fixpoint grouped_from (k : nat) (rev_chars : list ascii) : bool :=
  match rev_chars with
  | [] => (1 <=? k)%nat
  | c :: rest =>
      if (k =? 3)%nat then is_comma c && grouped_from 0 rest
      else is_digit c && grouped_from (S k) rest
  end.

(** [s] is a non-negative integer written with a thousands separator. *)
Definition thousands_grouped (s : string) : bool :=
  grouped_from 0 (rev (list_ascii_of_string s)).

(** [s] is an amount as [f"{z:,}"] writes it: an optional minus sign, then
    grouped digits; no decimal point, no other character. *)
Definition grouped_amount (s : string) : bool :=
  match s with
  | String "-"%char s' => thousands_grouped s'
  | _ => thousands_grouped s
  end.

(** [s] is a plain integer: an optional minus sign, then digits only. *)
Definition plain_integer (s : string) : bool :=
  match s with
  | String "-"%char s' => negb (String.eqb s' "") && all_chars is_digit s'
  | _ => negb (String.eqb s "") && all_chars is_digit s
  end.

(** [s] reads [YYYY-MM-DD HH:MM:SS] with a digit at every letter. *)
Definition timestamp_shape (s : string) : bool :=
  match list_ascii_of_string s with
  | [y1; y2; y3; y4; a; m1; m2; b; d1; d2; c; h1; h2; d; n1; n2; e; s1; s2] =>
      forallb is_digit [y1; y2; y3; y4; m1; m2; d1; d2; h1; h2; n1; n2; s1; s2]
      && Ascii.eqb a "-" && Ascii.eqb b "-" && Ascii.eqb c " "
      && Ascii.eqb d ":" && Ascii.eqb e ":"
  | _ => false
  end.

(* ===================================================================== *)
(** ** Running the handler *)
(* ===================================================================== *)

Lemma py_or_str (s : string) : py_or (VStr s) (VStr "") = VStr s.
Proof. unfold py_or. destruct s; reflexivity. Qed.

Lemma request_phone phone message :
  dict_get (default ∅ (request phone message)) "phone" = VStr phone.
Proof. reflexivity. Qed.

Lemma request_message phone message :
  dict_get (default ∅ (request phone message)) "message" = VStr message.
Proof. reflexivity. Qed.

Lemma app_if {A B : Type} (b : bool) (f g : A -> B) (x : A) :
  (if b then f else g) x = if b then f x else g x.
Proof. destruct b; reflexivity. Qed.

(** Unfold the prelude of [query] on a [request]: what is left is the
    chain of tests on the lower-cased message and the looked-up record. *)
Ltac run_query :=
  unfold query;
  rewrite ?request_phone, ?request_message, ?py_or_str;
  unfold bind, lift, ret, load_json, datetime_now, M;
  cbn [call_strip call_lower];
  repeat (rewrite app_if; cbv beta);
  repeat match goal with
    | |- context [default ∅ (json_load (FINANCE_FILE ?w) !! PyStr.strip ?p)] =>
        fold (get_financial_record p w)
    end.

(** Split a fact about [Rules.classify] into the outcome of each test. *)
Ltac split_classify H :=
  unfold Rules.classify, Rules.table, find, Rules.matches, Rules.triggers in H;
  repeat match type of H with
    | context [if ?b then _ else _] => destruct b eqn:?
    end;
  try discriminate H.

Ltac case_tests :=
  repeat match goal with
    | |- context [PyStr.any_in ?ws ?m] => destruct (PyStr.any_in ws m) eqn:?
    end.

(** Case analysis on whatever the remaining branches inspect. *)
Ltac case_matches :=
  repeat match goal with
    | |- context [match ?x with _ => _ end] => destruct x
    end.

(** *** The digit limit *)

Lemma str_limit_is_power : PyInt.str_limit = (10 ^ PyInt.max_str_digits)%Z.
Proof. vm_compute. reflexivity. Qed.

Lemma too_long_abs (z : Z) : PyInt.too_long (Z.abs z) = PyInt.too_long z.
Proof. unfold PyInt.too_long. rewrite Z.abs_idemp. reflexivity. Qed.

Lemma too_long_opp (z : Z) : PyInt.too_long (- z) = PyInt.too_long z.
Proof. unfold PyInt.too_long. rewrite Z.abs_opp. reflexivity. Qed.

(** What [json_load] returns holds no integer that is too long. *)
Lemma json_load_within_limit (content : option (gmap string (gmap string value)))
    (phone key : string) (record : gmap string value) (z : Z) :
  json_load content !! phone = Some record -> record !! key = Some (VInt z) ->
  PyInt.too_long z = false.
Proof.
  unfold json_load. destruct content as [doc|]; [|rewrite lookup_empty; discriminate].
  destruct (json_accepts doc) eqn:Ea; [|rewrite lookup_empty; discriminate].
  intros Hr Hz. unfold json_accepts in Ea. apply bool_decide_eq_true in Ea.
  pose proof (Ea _ _ Hr _ _ Hz) as H. simpl in H.
  destruct (PyInt.too_long z); [discriminate H | reflexivity].
Qed.

Lemma json_load_accepted (doc : gmap string (gmap string value)) :
  json_accepts doc = true -> json_load (Some doc) = doc.
Proof. unfold json_load. intros ->. reflexivity. Qed.

(** The record [query] answers from holds no integer that is too long. *)
Lemma record_within_limit (phone : string) (w : World) (key : string) (z : Z) :
  get_financial_record phone w !! key = Some (VInt z) -> PyInt.too_long z = false.
Proof.
  unfold get_financial_record.
  destruct (json_load (FINANCE_FILE w) !! PyStr.strip phone) as [record|] eqn:Er.
  - apply (json_load_within_limit _ _ _ _ _ Er).
  - cbn. rewrite lookup_empty. discriminate.
Qed.

Lemma record_field_cases (phone : string) (w : World) (key : string) :
  int_record (get_financial_record phone w) ->
  (get_financial_record phone w !! key = None
   /\ int_field (get_financial_record phone w) key = None)
  \/ (exists z, get_financial_record phone w !! key = Some (VInt z)
                /\ int_field (get_financial_record phone w) key = Some z
                /\ PyInt.too_long z = false).
Proof.
  intros Hd. unfold int_field.
  destruct (get_financial_record phone w !! key) as [v|] eqn:E; [right | left; auto].
  destruct (Hd _ _ E) as [z ->]. exists z. repeat split.
  apply (record_within_limit _ _ _ _ E).
Qed.

Ltac use_limits :=
  rewrite ?too_long_abs;
  repeat match goal with
    | H : PyInt.too_long ?z = false |- context [PyInt.too_long ?z] => rewrite H
    end.

(** On a record of integers, [query] answers as the table says, as long as
    the net worth, when it is asked for, is not too long to be written. *)
Lemma query_respond phone message w :
  int_record (get_financial_record phone w) ->
  (Rules.classify (PyStr.lower message) = Some Rules.NetWorth ->
   PyInt.too_long (Rules.net_worth (record_of (get_financial_record phone w))) = false) ->
  query (request phone message) w =
  Ok (if String.eqb (PyStr.lower message) "" then Rules.prompt
      else Rules.respond (PyStr.lower message)
             (record_of (get_financial_record phone w)) (now w)).
Proof.
  intros Hd Hnw. run_query.
  destruct (PyStr.lower message) as [|c m] eqn:Em; [reflexivity|].
  cbn [truthy negb String.eqb]. rewrite <- Em in *. clear Em.
  unfold Rules.respond, Rules.classify, Rules.table, find, Rules.matches,
    Rules.triggers in *.
  unfold Rules.reply_of, Rules.field, record_of, Rules.net_worth_reply,
    Rules.net_worth in *;
    cbn [Rules.bank_balance Rules.mutual_funds Rules.stocks Rules.loan
         Rules.credit_score] in *.
  unfold dict_get, dict_get_default.
  destruct (record_field_cases phone w "bank_balance" Hd)
    as [[Eb Eib] | (bal & Eb & Eib & Hbal)];
  destruct (record_field_cases phone w "mutual_funds" Hd)
    as [[Emf Eimf] | (mf & Emf & Eimf & Hmf)];
  destruct (record_field_cases phone w "stocks" Hd)
    as [[Est Eist] | (st & Est & Eist & Hst)];
  destruct (record_field_cases phone w "loan" Hd)
    as [[Eln Eiln] | (ln & Eln & Eiln & Hln)];
  destruct (record_field_cases phone w "credit_score" Hd)
    as [[Ecs Eics] | (cs & Ecs & Eics & Hcs)];
  rewrite Eib, Eimf, Eist, Eiln in Hnw;
  rewrite Eb, Emf, Est, Eln, Ecs, Eib, Eimf, Eist, Eiln, Eics;
  cbn [default from_option id] in Hnw;
  case_tests;
  try specialize (Hnw eq_refl);
  cbn [default from_option id is_none eq_zero fmt_comma fmt_plain
       py_add py_sub py_lt_zero py_abs
       Rules.unavailable Rules.available];
  unfold Rules.rupees, Rules.fallback;
  use_limits;
  repeat match goal with
    | |- context [(?z =? 0)%Z] => destruct (z =? 0)%Z
    | |- context [(?z <? 0)%Z] => destruct (z <? 0)%Z eqn:?
    end;
  use_limits;
  reflexivity.
Qed.

(** When the net-worth rule answers a record of integers, the reply is the
    computed one if the result can be written, and ValueError otherwise. *)
Lemma query_net_worth phone message w :
  int_record (get_financial_record phone w) ->
  Rules.classify (PyStr.lower message) = Some Rules.NetWorth ->
  query (request phone message) w =
  if PyInt.too_long (Rules.net_worth (record_of (get_financial_record phone w)))
  then Raise ValueError
  else Ok (Rules.net_worth_reply (record_of (get_financial_record phone w))).
Proof.
  intros Hd Hc.
  destruct (PyInt.too_long (Rules.net_worth (record_of (get_financial_record phone w))))
    eqn:Hnw.
  2:{ rewrite (query_respond _ _ _ Hd (fun _ => Hnw)).
      unfold Rules.respond. rewrite Hc.
      destruct (PyStr.lower message); [discriminate Hc | reflexivity]. }
  run_query.
  destruct (PyStr.lower message) as [|c m] eqn:Em; [discriminate Hc|].
  cbn [truthy negb String.eqb]. rewrite <- Em in *. clear Em.
  split_classify Hc.
  unfold record_of, Rules.net_worth in Hnw;
    cbn [Rules.bank_balance Rules.mutual_funds Rules.stocks Rules.loan] in Hnw.
  unfold dict_get_default.
  destruct (record_field_cases phone w "bank_balance" Hd)
    as [[Eb Eib] | (bal & Eb & Eib & Hbal)];
  destruct (record_field_cases phone w "mutual_funds" Hd)
    as [[Emf Eimf] | (mf & Emf & Eimf & Hmf)];
  destruct (record_field_cases phone w "stocks" Hd)
    as [[Est Eist] | (st & Est & Eist & Hst)];
  destruct (record_field_cases phone w "loan" Hd)
    as [[Eln Eiln] | (ln & Eln & Eiln & Hln)];
  rewrite Eib, Eimf, Eist, Eiln in Hnw;
  rewrite Eb, Emf, Est, Eln;
  cbn [default from_option id] in Hnw;
  cbn [default from_option id fmt_comma py_add py_sub py_lt_zero py_abs];
  match goal with
  | |- context [(?z <? 0)%Z] => destruct (z <? 0)%Z
  end;
  cbn [fmt_comma py_abs]; rewrite ?too_long_abs, Hnw; reflexivity.
Qed.

(* ===================================================================== *)
(** ** Facts about text *)
(* ===================================================================== *)

Section Chars.

Variables p q : ascii -> bool.

Lemma all_chars_app (s t : string) :
  all_chars p (s ++ t) = all_chars p s && all_chars p t.
Proof.
  induction s as [|c s IH]; simpl; [reflexivity|].
  rewrite IH. apply andb_assoc.
Qed.

Lemma all_chars_impl (s : string) :
  (forall c, p c = true -> q c = true) ->
  all_chars p s = true -> all_chars q s = true.
Proof.
  intros Hpq. induction s as [|c s IH]; simpl; [reflexivity|].
  intros [Hc Hs]%andb_prop. rewrite (Hpq _ Hc), (IH Hs). reflexivity.
Qed.

End Chars.

(** A word whose first character does not occur in [s] does not occur in [s]. *)
Lemma contains_absent_head (a : ascii) (word s : string) :
  all_chars (fun c => negb (Ascii.eqb c a)) s = true ->
  PyStr.contains (String a word) s = false.
Proof.
  induction s as [|b s IH]; simpl; [reflexivity|].
  intros [Hb Hs]%andb_prop.
  destruct (ascii_dec a b) as [->|_].
  - rewrite Ascii.eqb_refl in Hb. discriminate.
  - exact (IH Hs).
Qed.

(** *** Decimal digits *)

Lemma string_of_uint_digits (d : Decimal.uint) :
  all_chars is_digit (NilEmpty.string_of_uint d) = true.
Proof. induction d; simpl; auto. Qed.

Lemma digits_all_digit (n : N) : all_chars is_digit (PyInt.digits n) = true.
Proof.
  unfold PyInt.digits, NilZero.string_of_uint.
  destruct (N.to_uint n); try reflexivity; apply string_of_uint_digits.
Qed.

Lemma digits_nonempty (n : N) : PyInt.digits n <> "".
Proof.
  unfold PyInt.digits, NilZero.string_of_uint.
  destruct (N.to_uint n); simpl; discriminate.
Qed.

Lemma is_digit_not_comma (c : ascii) : is_digit c = true -> is_comma c = false.
Proof.
  intros H. unfold is_comma. destruct (Ascii.eqb c ",") eqn:E; [|reflexivity].
  apply Ascii.eqb_eq in E. subst c. discriminate H.
Qed.

Lemma is_digit_not_minus (c : ascii) : is_digit c = true -> c <> "-"%char.
Proof. intros H ->. discriminate H. Qed.

(** *** Thousands grouping *)

Lemma all_chars_forallb (p : ascii -> bool) (s : string) :
  all_chars p s = forallb p (list_ascii_of_string s).
Proof. induction s as [|c s IH]; simpl; [reflexivity|]. rewrite IH. reflexivity. Qed.

Lemma group3_grouped (n : nat) (l : list ascii) :
  (List.length l <= n)%nat -> l <> [] -> forallb is_digit l = true ->
  grouped_from 0 (PyInt.group3 l) = true.
Proof.
  revert l. induction n as [|n IH]; intros l Hlen Hne Hd.
  - destruct l; [congruence | simpl in Hlen; lia].
  - destruct l as [|a [|b [|c [|d rest]]]]; [congruence | ..]; simpl in Hd |- *.
    + rewrite andb_true_r in Hd. rewrite Hd. reflexivity.
    + apply andb_prop in Hd as [-> Hd]. rewrite andb_true_r in Hd.
      rewrite Hd. reflexivity.
    + apply andb_prop in Hd as [-> Hd]. apply andb_prop in Hd as [-> Hd].
      rewrite andb_true_r in Hd. rewrite Hd. reflexivity.
    + apply andb_prop in Hd as [-> Hd]. apply andb_prop in Hd as [-> Hd].
      apply andb_prop in Hd as [-> Hd]. simpl.
      apply (IH (d :: rest)); [simpl in *; lia | discriminate | exact Hd].
Qed.

Lemma group3_filter (n : nat) (l : list ascii) :
  (List.length l <= n)%nat -> forallb is_digit l = true ->
  List.filter (fun c => negb (is_comma c)) (PyInt.group3 l) = l.
Proof.
  revert l. induction n as [|n IH]; intros l Hlen Hd.
  - destruct l; [reflexivity | simpl in Hlen; lia].
  - destruct l as [|a [|b [|c [|d rest]]]]; simpl in Hd;
      repeat match type of Hd with
        | (is_digit ?x && _) = true =>
            let Hx := fresh "Hx" in
            let Hy := fresh "Hy" in
            apply andb_prop in Hd as [Hx Hd];
            pose proof (is_digit_not_comma _ Hx) as Hy
        end.
    + reflexivity.
    + simpl. rewrite Hy. reflexivity.
    + simpl. rewrite Hy, Hy0. reflexivity.
    + simpl. rewrite Hy, Hy0, Hy1. reflexivity.
    + change (PyInt.group3 (a :: b :: c :: d :: rest))
        with (a :: b :: c :: ","%char :: PyInt.group3 (d :: rest)).
      cbn [List.filter]. rewrite Hy, Hy0, Hy1. cbn [negb].
      change (is_comma ",") with true. cbn [negb].
      rewrite (IH (d :: rest)); [reflexivity | simpl in *; lia |].
      simpl. rewrite Hx2. exact Hd.
Qed.

Lemma ungroup_filter (l : list ascii) :
  ungroup (string_of_list_ascii l)
  = string_of_list_ascii (List.filter (fun c => negb (is_comma c)) l).
Proof.
  induction l as [|c l IH]; simpl; [reflexivity|].
  destruct (is_comma c); simpl; rewrite IH; reflexivity.
Qed.

Lemma filter_rev {A : Type} (f : A -> bool) (l : list A) :
  List.filter f (rev l) = rev (List.filter f l).
Proof.
  induction l as [|x l IH]; simpl; [reflexivity|].
  rewrite List.filter_app, IH. simpl. destruct (f x); simpl.
  - reflexivity.
  - rewrite app_nil_r. reflexivity.
Qed.

Lemma forallb_rev {A : Type} (f : A -> bool) (l : list A) :
  forallb f (rev l) = forallb f l.
Proof.
  induction l as [|x l IH]; simpl; [reflexivity|].
  rewrite forallb_app, IH. simpl. rewrite andb_true_r. apply andb_comm.
Qed.

(** Grouping the digits writes them in groups of three from the right. *)
Lemma thousands_is_grouped (ds : string) :
  ds <> "" -> all_chars is_digit ds = true ->
  thousands_grouped (PyInt.thousands ds) = true.
Proof.
  intros Hne Hd. unfold thousands_grouped, PyInt.thousands.
  rewrite list_ascii_of_string_of_list_ascii, rev_involutive.
  apply (group3_grouped (List.length (rev (list_ascii_of_string ds)))).
  - lia.
  - destruct ds; [congruence|]. simpl. intros H. apply app_eq_nil in H as [_ H].
    discriminate.
  - rewrite forallb_rev, <- all_chars_forallb. exact Hd.
Qed.

(** Taking the commas out gives the digits back. *)
Lemma ungroup_thousands (ds : string) :
  all_chars is_digit ds = true -> ungroup (PyInt.thousands ds) = ds.
Proof.
  intros Hd. unfold PyInt.thousands.
  rewrite ungroup_filter, filter_rev.
  rewrite (group3_filter (List.length (rev (list_ascii_of_string ds)))).
  - rewrite rev_involutive. apply string_of_list_ascii_of_string.
  - lia.
  - rewrite forallb_rev, <- all_chars_forallb. exact Hd.
Qed.

Lemma grouped_from_chars (l : list ascii) (k : nat) :
  grouped_from k l = true -> forallb (fun c => is_digit c || is_comma c) l = true.
Proof.
  revert k. induction l as [|c l IH]; intros k; simpl; [reflexivity|].
  destruct (k =? 3)%nat; intros [Hc Hl]%andb_prop; rewrite Hc, (IH _ Hl);
    simpl; rewrite ?orb_true_r; reflexivity.
Qed.

Lemma thousands_grouped_head (c : ascii) (s : string) :
  thousands_grouped (String c s) = true -> c <> "-"%char.
Proof.
  unfold thousands_grouped. intros H%grouped_from_chars.
  rewrite forallb_rev in H. simpl in H. apply andb_prop in H as [H _].
  intros ->. discriminate H.
Qed.

Lemma format_comma_grouped (z : Z) : grouped_amount (PyInt.format_comma z) = true.
Proof.
  pose proof (thousands_is_grouped (PyInt.digits (Z.abs_N z))
                (digits_nonempty _) (digits_all_digit _)) as H.
  unfold PyInt.format_comma. destruct (z <? 0)%Z; simpl.
  - exact H.
  - destruct (PyInt.thousands (PyInt.digits (Z.abs_N z))) as [|c s] eqn:E.
    + exact H.
    + pose proof (thousands_grouped_head _ _ H) as Hc.
      unfold grouped_amount.
      destruct c as [[] [] [] [] [] [] [] []]; try exact H. congruence.
Qed.

Lemma ungroup_format_comma (z : Z) : ungroup (PyInt.format_comma z) = PyInt.str z.
Proof.
  unfold PyInt.format_comma, PyInt.str.
  destruct (z <? 0)%Z; cbn [String.append ungroup].
  - change (is_comma "-") with false. cbv iota.
    rewrite ungroup_thousands by apply digits_all_digit. reflexivity.
  - apply ungroup_thousands, digits_all_digit.
Qed.

Lemma str_plain (z : Z) : plain_integer (PyInt.str z) = true.
Proof.
  pose proof (digits_nonempty (Z.abs_N z)) as Hne.
  pose proof (digits_all_digit (Z.abs_N z)) as Hd.
  unfold PyInt.str. destruct (z <? 0)%Z; simpl.
  - rewrite Hd. destruct (PyInt.digits (Z.abs_N z)); [congruence | reflexivity].
  - destruct (PyInt.digits (Z.abs_N z)) as [|c s] eqn:E; [congruence|].
    simpl in Hd. apply andb_prop in Hd as [Hc Hs].
    pose proof (is_digit_not_minus _ Hc) as Hm.
    unfold plain_integer.
    destruct c as [[] [] [] [] [] [] [] []]; try congruence;
      simpl; simpl in Hc; rewrite ?Hs; try reflexivity; try discriminate Hc.
Qed.

(** *** Timestamps *)

Lemma digit_char_is_digit (n : N) : is_digit (digit_char n) = true.
Proof.
  unfold digit_char.
  assert (Hm : (n mod 10 < 10)%N) by (apply N.mod_upper_bound; discriminate).
  generalize dependent (n mod 10)%N. intros m Hm.
  assert (Hc : (m = 0 \/ m = 1 \/ m = 2 \/ m = 3 \/ m = 4 \/ m = 5 \/ m = 6
                \/ m = 7 \/ m = 8 \/ m = 9)%N) by lia.
  repeat destruct Hc as [-> | Hc]; try rewrite Hc; reflexivity.
Qed.

(** Whatever the clock says, the timestamp reads [YYYY-MM-DD HH:MM:SS]. *)
Lemma strftime_shape (dt : datetime) : timestamp_shape (strftime dt) = true.
Proof.
  unfold timestamp_shape, strftime, four_digits, two_digits.
  cbn [String.append list_ascii_of_string forallb].
  rewrite !digit_char_is_digit. reflexivity.
Qed.

(** Below 100, the two digits are the decimal numeral, zero-padded. *)
Lemma two_digits_zero_padded (n : N) :
  (n < 100)%N ->
  two_digits n = (if (n <? 10)%N then "0" else "") ++ PyInt.digits n.
Proof.
  intros H.
  assert (Hb : forallb (fun k => String.eqb (two_digits k)
                                   ((if (k <? 10)%N then "0" else "") ++ PyInt.digits k))
                 (List.map N.of_nat (List.seq 0 100)) = true)
    by (vm_compute; reflexivity).
  rewrite forallb_forall in Hb. apply String.eqb_eq, Hb.
  apply in_map_iff. exists (N.to_nat n). split; [lia|]. apply in_seq. lia.
Qed.

(** From year 1000 on, the four digits are the decimal numeral. *)
Lemma four_digits_numeral (y : N) :
  (1000 <= y <= 9999)%N -> four_digits y = PyInt.digits y.
Proof.
  intros H.
  assert (Hb : forall base,
             In base [1000; 5500]%N ->
             forallb (fun k => String.eqb (four_digits k) (PyInt.digits k))
               (List.map (fun k => base + N.of_nat k)%N (List.seq 0 4500)) = true).
  { intros base [<- | [<- | []]]; vm_compute; reflexivity. }
  destruct (N.ltb_spec y 5500) as [Hy | Hy].
  - specialize (Hb 1000%N (or_introl eq_refl)).
    rewrite forallb_forall in Hb. apply String.eqb_eq, Hb.
    apply in_map_iff. exists (N.to_nat (y - 1000)). split; [lia|]. apply in_seq. lia.
  - specialize (Hb 5500%N (or_intror (or_introl eq_refl))).
    rewrite forallb_forall in Hb. apply String.eqb_eq, Hb.
    apply in_map_iff. exists (N.to_nat (y - 5500)). split; [lia|]. apply in_seq. lia.
Qed.

(** *** Whitespace *)

Lemma lower_char_space (c : ascii) : PyStr.isspace c = true -> PyStr.lower_char c = c.
Proof.
  destruct c as [[] [] [] [] [] [] [] []]; intros H; try discriminate H; reflexivity.
Qed.

Lemma lower_whitespace (s : string) :
  all_chars PyStr.isspace s = true -> PyStr.lower s = s.
Proof.
  induction s as [|c s IH]; simpl; [reflexivity|].
  intros [Hc Hs]%andb_prop. rewrite (lower_char_space _ Hc), (IH Hs). reflexivity.
Qed.

(** A word that starts with a letter does not occur in blank text. *)
Lemma contains_whitespace (a : ascii) (word s : string) :
  PyStr.isspace a = false -> all_chars PyStr.isspace s = true ->
  PyStr.contains (String a word) s = false.
Proof.
  intros Ha Hs. apply contains_absent_head.
  revert Hs. apply all_chars_impl. intros c Hc.
  destruct (Ascii.eqb c a) eqn:E; [|reflexivity].
  apply Ascii.eqb_eq in E. congruence.
Qed.

Lemma classify_whitespace (s : string) :
  all_chars PyStr.isspace s = true -> Rules.classify s = None.
Proof.
  intros Hs. unfold Rules.classify, Rules.table, find, Rules.matches, Rules.triggers,
    PyStr.any_in, existsb.
  repeat match goal with
    | |- context [PyStr.contains (String ?a ?word) s] =>
        rewrite (contains_whitespace a word s eq_refl Hs)
    end.
  reflexivity.
Qed.

Lemma lower_empty (s : string) : PyStr.lower s = "" <-> s = "".
Proof. destruct s; simpl; split; congruence. Qed.

(* ===================================================================== *)
(** ** Records and worlds *)
(* ===================================================================== *)

Lemma int_record_empty : int_record ∅.
Proof. intros key v H. rewrite lookup_empty in H. discriminate. Qed.

Lemma int_record_insert (d : gmap string value) (key : string) (z : Z) :
  int_record d -> int_record (<[key := VInt z]> d).
Proof.
  intros Hd k v. destruct (decide (key = k)) as [->|Hne].
  - rewrite lookup_insert_eq. intros [= <-]. eauto.
  - rewrite lookup_insert_ne by exact Hne. apply Hd.
Qed.

Lemma starter_record_int : int_record starter_record.
Proof. unfold starter_record. repeat apply int_record_insert. apply int_record_empty. Qed.

(** A document [json.load] accepts is what [load_json] returns. *)
Lemma world_with_record (d : gmap string value) (t : datetime) :
  json_accepts (<[starter_phone := d]> ∅) = true ->
  get_financial_record starter_phone (world_with d t) = d.
Proof.
  intros Ha. unfold get_financial_record, world_with. cbn [FINANCE_FILE json_load].
  rewrite Ha. change (PyStr.strip starter_phone) with starter_phone.
  rewrite lookup_insert_eq. reflexivity.
Qed.

Lemma starter_world_record (t : datetime) :
  get_financial_record starter_phone (starter_world t) = starter_record.
Proof. reflexivity. Qed.

(** A phone the document does not know has the empty record. *)
Lemma get_financial_record_missing (phone : string) (w : World) :
  default ∅ (FINANCE_FILE w) !! PyStr.strip phone = None ->
  get_financial_record phone w = ∅.
Proof.
  unfold get_financial_record, json_load. intros H.
  destruct (FINANCE_FILE w) as [doc|]; cbn [default from_option id] in H.
  - destruct (json_accepts doc).
    + rewrite H. reflexivity.
    + rewrite lookup_empty. reflexivity.
  - rewrite lookup_empty. reflexivity.
Qed.

(** Nor does a document that cannot be read. *)
Lemma get_financial_record_unreadable (phone : string) (w : World) :
  FINANCE_FILE w = None -> get_financial_record phone w = ∅.
Proof. intros H. apply get_financial_record_missing. rewrite H. apply lookup_empty. Qed.

(* ===================================================================== *)
(** ** The reply is always there *)
(* ===================================================================== *)

Lemma respond_nonempty (message : string) (r : Rules.FinancialRecord) (t : datetime) :
  Rules.respond message r t <> "".
Proof.
  unfold Rules.respond, Rules.reply_of, Rules.net_worth_reply, Rules.fallback.
  destruct (Rules.classify message) as [[]|]; cbn [Rules.field];
    repeat match goal with
      | |- context [match ?o with Some _ => _ | None => _ end] => destruct o
      | |- context [if ?b then _ else _] => destruct b
      end;
    cbn [Rules.available Rules.unavailable];
    repeat match goal with
      | |- context [if ?b then _ else _] => destruct b
      end;
    simpl; discriminate.
Qed.

(** C1, as claimed, fails: each field of a stored record has at most 4300
    digits, but the sum the net-worth rule computes can have more, and
    then the [,] format raises ValueError.  Here the bank balance and the
    mutual funds are 4300 nines each. *)
Lemma net_worth_too_long_to_write :
  is_ascii starter_phone = true
  /\ is_ascii "net worth" = true
  /\ get_financial_record starter_phone (world_with rich_record noon) = rich_record
  /\ int_record rich_record
  /\ query (request starter_phone "net worth") (world_with rich_record noon)
     = Raise ValueError.
Proof.
  split; [reflexivity|]. split; [reflexivity|].
  split; [apply world_with_record; vm_compute; reflexivity|].
  split; [unfold rich_record; repeat apply int_record_insert; apply int_record_empty|].
  vm_compute. reflexivity.
Qed.

(** C1, amended.  For every ASCII phone and message and every record whose
    present fields are integers, [query] raises nothing and returns one
    reply, which is not the empty string, provided that the net worth, when
    the net-worth rule is the one that answers, has at most 4300 digits;
    when it has more, that rule raises ValueError.  The empty message, a
    phone without a record and a record with fields missing are all inputs
    of this theorem. *)
Theorem query_always_replies (phone message : string) (w : World) :
  is_ascii phone = true -> is_ascii message = true ->
  int_record (get_financial_record phone w) ->
  ((Rules.classify (PyStr.lower message) = Some Rules.NetWorth ->
    PyInt.too_long (Rules.net_worth (record_of (get_financial_record phone w))) = false) ->
   exists reply, query (request phone message) w = Ok reply /\ reply <> "")
  /\ (Rules.classify (PyStr.lower message) = Some Rules.NetWorth ->
      PyInt.too_long (Rules.net_worth (record_of (get_financial_record phone w))) = true ->
      query (request phone message) w = Raise ValueError).
Proof.
  intros _ _ Hd. split.
  - intros Hnw. rewrite (query_respond _ _ _ Hd Hnw). eexists. split; [reflexivity|].
    destruct (String.eqb (PyStr.lower message) "").
    + discriminate.
    + apply respond_nonempty.
  - intros Hc Hnw. rewrite (query_net_worth _ _ _ Hd Hc), Hnw. reflexivity.
Qed.

Lemma query_always_replies_witness :
  is_ascii starter_phone = true
  /\ is_ascii "What is my Net Worth?" = true
  /\ int_record (get_financial_record starter_phone (starter_world noon))
  /\ exists reply,
       query (request starter_phone "What is my Net Worth?") (starter_world noon)
       = Ok reply /\ reply <> "".
Proof.
  split; [reflexivity|]. split; [reflexivity|]. split; [exact starter_record_int|].
  apply (query_always_replies starter_phone "What is my Net Worth?"
           (starter_world noon) eq_refl eq_refl starter_record_int).
  intros _. reflexivity.
Defined.

(** Bodies other than a [request].  A body that is not JSON, or one without
    a message, is answered with the prompt; a message that is a number other
    than 0 has no [lower] method. *)
Example query_no_body (w : World) : query None w = Ok Rules.prompt.
Proof. reflexivity. Qed.

Example query_no_message (w : World) :
  query (Some (<["phone" := VStr starter_phone]> ∅)) w = Ok Rules.prompt.
Proof. reflexivity. Qed.

Example query_number_message (w : World) :
  query (Some (<["message" := VInt 7]> ∅)) w = Raise AttributeError.
Proof. reflexivity. Qed.

(** The hypothesis on the record is needed: [update_finance] stores whatever
    JSON it is sent, and a field holding text makes the [,] format raise. *)
Example query_raises_on_text_field :
  query (request starter_phone "balance")
        (world_with (<["bank_balance" := VStr "a lot"]> ∅) noon)
  = Raise ValueError.
Proof. reflexivity. Qed.

(* ===================================================================== *)
(** ** Empty messages and the fallback *)
(* ===================================================================== *)

Lemma matches_none (message : string) :
  (forall t, Rules.matches message t = false) <-> Rules.classify message = None.
Proof.
  split.
  - intros H. unfold Rules.classify, Rules.table, find.
    rewrite !H. reflexivity.
  - intros H t. unfold Rules.classify, Rules.table, find in H.
    repeat match type of H with
      | context [if ?b then _ else _] => destruct b eqn:?
      end; try discriminate H.
    destruct t; assumption.
Qed.

(** A message that is not empty and matches no rule is echoed, in lower
    case, with the time.  Nothing is asked of the record. *)
Lemma query_fallback (phone message : string) (w : World) :
  message <> "" -> Rules.classify (PyStr.lower message) = None ->
  query (request phone message) w = Ok (Rules.fallback (PyStr.lower message) (now w)).
Proof.
  intros Hne Hc. run_query.
  destruct (PyStr.lower message) as [|c m] eqn:Em.
  { apply (proj1 (lower_empty message)) in Em. contradiction. }
  cbn [truthy negb String.eqb]. rewrite <- Em in *. clear Em.
  split_classify Hc.
  reflexivity.
Qed.

(** The empty message is answered before the document is read. *)
Lemma query_empty (phone : string) (w : World) :
  query (request phone "") w = Ok Rules.prompt.
Proof. run_query. reflexivity. Qed.

(** C3, as claimed, fails: a message of one space is not empty for
    [if not message], matches no rule and gets the fallback reply. *)
Lemma whitespace_message_gets_fallback :
  all_chars PyStr.isspace " " = true
  /\ query (request starter_phone " ") (starter_world noon)
     = Ok (Rules.fallback " " noon)
  /\ query (request starter_phone " ") (starter_world noon)
     <> Ok "I didn't get that. Please send a message.".
Proof. split; [reflexivity|]. split; [reflexivity|]. discriminate. Qed.

(** C3, amended.  The empty message yields exactly the prompt, whatever the
    document and the clock hold: no rule is evaluated and the record is not
    even looked up.  The message is not trimmed: a message that is not empty
    and consists of whitespace only matches no rule and gets the fallback
    reply with the message echoed. *)
Theorem empty_message_prompt (phone : string) (w : World) :
  query (request phone "") w = Ok "I didn't get that. Please send a message."
  /\ forall message,
       message <> "" -> all_chars PyStr.isspace message = true ->
       Rules.classify (PyStr.lower message) = None
       /\ query (request phone message) w = Ok (Rules.fallback message (now w)).
Proof.
  split; [apply query_empty|]. intros message Hne Hs.
  pose proof (lower_whitespace _ Hs) as Hl.
  assert (Hc : Rules.classify (PyStr.lower message) = None)
    by (rewrite Hl; apply classify_whitespace, Hs).
  split; [exact Hc|].
  rewrite (query_fallback _ _ _ Hne Hc), Hl. reflexivity.
Qed.

Lemma empty_message_prompt_witness :
  query (request starter_phone "") (starter_world noon)
  = Ok "I didn't get that. Please send a message."
  /\ query (request starter_phone "   ") (starter_world noon)
     = Ok (Rules.fallback "   " noon).
Proof.
  destruct (empty_message_prompt starter_phone (starter_world noon)) as [He Hw].
  split; [exact He|].
  apply (Hw "   "); [discriminate | reflexivity].
Defined.

(** C4, as claimed, fails: the echo is the lower-cased message, not the
    original one. *)
Lemma fallback_echo_is_lowered :
  Rules.classify (PyStr.lower "Hello There") = None
  /\ query (request starter_phone "Hello There") (starter_world noon)
     = Ok (Rules.fallback "hello there" noon)
  /\ query (request starter_phone "Hello There") (starter_world noon)
     <> Ok (Rules.fallback "Hello There" noon).
Proof. split; [reflexivity|]. split; [reflexivity|]. discriminate. Qed.

(** C4, amended.  For every record and every non-empty ASCII message whose
    lower-cased form contains no trigger, the reply is the fallback text
    with the lower-cased message between double quotes and the local time
    written as YYYY-MM-DD HH:MM:SS; the original message is echoed verbatim
    when it has no upper-case letter. *)
Theorem fallback_reply (phone message : string) (w : World) :
  is_ascii phone = true -> is_ascii message = true ->
  message <> "" ->
  (forall t, Rules.matches (PyStr.lower message) t = false) ->
  query (request phone message) w
  = Ok ("I am still Learning, I don't have information about it. " ++ dquote
        ++ PyStr.lower message ++ dquote
        ++ " — (server time: " ++ strftime (now w) ++ ")")
  /\ timestamp_shape (strftime (now w)) = true
  /\ (PyStr.lower message = message ->
      query (request phone message) w = Ok (Rules.fallback message (now w))).
Proof.
  intros _ _ Hne Hm. apply matches_none in Hm.
  pose proof (query_fallback phone message w Hne Hm) as Hq.
  split; [exact Hq|]. split; [apply strftime_shape|].
  intros Hl. rewrite Hq, Hl. reflexivity.
Qed.

Lemma fallback_reply_witness :
  is_ascii starter_phone = true
  /\ is_ascii "hello there" = true
  /\ "hello there" <> ""
  /\ (forall t, Rules.matches (PyStr.lower "hello there") t = false)
  /\ query (request starter_phone "hello there") (starter_world noon)
     = Ok ("I am still Learning, I don't have information about it. " ++ dquote
           ++ "hello there" ++ dquote ++ " — (server time: 2024-01-15 12:00:00)").
Proof.
  assert (Hne : "hello there" <> "") by discriminate.
  assert (Hm : forall t, Rules.matches (PyStr.lower "hello there") t = false)
    by (intros t; destruct t; reflexivity).
  split; [reflexivity|]. split; [reflexivity|].
  split; [exact Hne|]. split; [exact Hm|].
  exact (proj1 (fallback_reply starter_phone "hello there" (starter_world noon)
                  eq_refl eq_refl Hne Hm)).
Defined.

(* ===================================================================== *)
(** ** Which rule answers *)
(* ===================================================================== *)

Lemma classify_nonempty (message : string) (t : Rules.topic) :
  Rules.classify (PyStr.lower message) = Some t -> message <> "".
Proof. intros H ->. discriminate H. Qed.

Lemma query_respond_nonempty (phone message : string) (w : World) :
  int_record (get_financial_record phone w) -> message <> "" ->
  (Rules.classify (PyStr.lower message) = Some Rules.NetWorth ->
   PyInt.too_long (Rules.net_worth (record_of (get_financial_record phone w))) = false) ->
  query (request phone message) w
  = Ok (Rules.respond (PyStr.lower message)
          (record_of (get_financial_record phone w)) (now w)).
Proof.
  intros Hd Hne Hnw. rewrite (query_respond _ _ _ Hd Hnw).
  destruct (PyStr.lower message) eqn:Em; [|reflexivity].
  apply (proj1 (lower_empty message)) in Em. contradiction.
Qed.

(** The rule that answers is the first one in table order that matches. *)
Lemma classify_first (message : string) (t : Rules.topic) :
  Rules.matches message t = true ->
  (forall t', (Rules.priority t' < Rules.priority t)%nat ->
              Rules.matches message t' = false) ->
  Rules.classify message = Some t.
Proof.
  intros Ht Hbefore. unfold Rules.classify, Rules.table, find.
  destruct t; rewrite ?Ht;
    repeat match goal with
      | |- context [Rules.matches message ?t'] =>
          rewrite (Hbefore t') by (cbn; lia)
      end;
    reflexivity.
Qed.

Lemma classify_first_inv (message : string) (t : Rules.topic) :
  Rules.classify message = Some t ->
  Rules.matches message t = true
  /\ forall t', (Rules.priority t' < Rules.priority t)%nat ->
                Rules.matches message t' = false.
Proof.
  intros H. unfold Rules.classify, Rules.table, find in H.
  repeat match type of H with
    | context [if ?b then _ else _] => destruct b eqn:?
    end; try discriminate H;
  injection H as <-; (split; [assumption|]);
  intros t' Hlt; destruct t'; cbn in Hlt; try lia; assumption.
Qed.

(** A rule that matches is answered by itself or by an earlier rule. *)
Lemma classify_before (message : string) (t : Rules.topic) :
  Rules.matches message t = true ->
  exists t0, Rules.classify message = Some t0
             /\ (Rules.priority t0 <= Rules.priority t)%nat.
Proof.
  intros Ht. unfold Rules.classify, Rules.table, find.
  repeat match goal with
    | |- context [if Rules.matches message ?t' then _ else _] =>
        destruct (Rules.matches message t') eqn:?
    end;
    destruct t;
    first [ congruence | eexists; split; [reflexivity | cbn; lia] ].
Qed.

Lemma contains_matches (word message : string) (t : Rules.topic) :
  In word (Rules.triggers t) -> PyStr.contains word message = true ->
  Rules.matches message t = true.
Proof.
  intros Hin Hc. unfold Rules.matches, PyStr.any_in.
  apply existsb_exists. exists word. split; assumption.
Qed.

(** No reply of the first four rules reads like a credit-score reply. *)
Lemma reply_not_credit (t : Rules.topic) (r r' : Rules.FinancialRecord) :
  (Rules.priority t < 5)%nat ->
  Rules.reply_of t r <> Rules.reply_of Rules.CreditScore r'.
Proof.
  intros Hlt. unfold Rules.reply_of. cbn [Rules.field].
  destruct (Rules.credit_score r') as [cs|];
  destruct t; cbn in Hlt; try lia; cbn [Rules.field];
    match goal with
    | |- context [match ?o with Some _ => _ | None => _ end] => destruct o as [v|]
    end;
    cbn [Rules.available Rules.unavailable]; unfold Rules.rupees;
    try (destruct (v =? 0)%Z); simpl; discriminate.
Qed.

(** C2, as claimed, fails in its instance: a message that contains "loan"
    and "credit" and also a trigger of an earlier rule gets that rule's
    reply, not the loan reply. *)
Lemma bank_outranks_loan :
  PyStr.contains "loan" (PyStr.lower "bank loan credit") = true
  /\ PyStr.contains "credit" (PyStr.lower "bank loan credit") = true
  /\ query (request starter_phone "bank loan credit") (starter_world noon)
     = Ok "Your bank balance is ₹850,000."
  /\ Rules.reply_of Rules.Loan (record_of starter_record)
     = "Your current loan is ₹300,000.".
Proof. repeat split; reflexivity. Qed.

(** C2, amended.  For ASCII messages, rules are tried in the order bank
    balance, mutual funds, stocks, loan, credit score, net worth, and the
    first match wins: the reply is that of the matching rule with no
    matching rule before it (for the net-worth rule, when the net worth
    has at most 4300 digits).  A message containing both "loan" and
    "credit" never gets the credit-score reply; it gets the loan reply
    when it contains no trigger of the bank-balance, mutual-funds and
    stocks rules. *)
Theorem first_match_wins (phone message : string) (w : World) :
  is_ascii phone = true -> is_ascii message = true ->
  int_record (get_financial_record phone w) ->
  message <> "" ->
  let m := PyStr.lower message in
  let r := record_of (get_financial_record phone w) in
  map Rules.priority Rules.table = [1; 2; 3; 4; 5; 6]%nat
  /\ (forall t,
        Rules.matches m t = true ->
        (forall t', (Rules.priority t' < Rules.priority t)%nat ->
                    Rules.matches m t' = false) ->
        (t = Rules.NetWorth -> PyInt.too_long (Rules.net_worth r) = false) ->
        query (request phone message) w = Ok (Rules.reply_of t r))
  /\ (PyStr.contains "loan" m = true -> PyStr.contains "credit" m = true ->
      (forall r', query (request phone message) w
                  <> Ok (Rules.reply_of Rules.CreditScore r'))
      /\ (Rules.matches m Rules.BankBalance = false ->
          Rules.matches m Rules.MutualFunds = false ->
          Rules.matches m Rules.Stocks = false ->
          query (request phone message) w = Ok (Rules.reply_of Rules.Loan r))).
Proof.
  intros _ _ Hd Hne m r. subst m r.
  split; [reflexivity|]. split.
  - intros t Ht Hbefore Hlim.
    pose proof (classify_first _ _ Ht Hbefore) as Hc.
    rewrite (query_respond_nonempty _ _ _ Hd Hne).
    + unfold Rules.respond. rewrite Hc. reflexivity.
    + intros Hc'. apply Hlim. congruence.
  - intros Hloan Hcredit.
    assert (Hl : Rules.matches (PyStr.lower message) Rules.Loan = true)
      by (apply (contains_matches "loan"); [cbn; auto | exact Hloan]).
    destruct (classify_before _ _ Hl) as (t0 & Hc0 & Hle).
    assert (Hq : query (request phone message) w
                 = Ok (Rules.reply_of t0 (record_of (get_financial_record phone w)))).
    { rewrite (query_respond_nonempty _ _ _ Hd Hne).
      - unfold Rules.respond. rewrite Hc0. reflexivity.
      - intros Hc'. rewrite Hc' in Hc0. injection Hc0 as <-. cbn in Hle. lia. }
    split.
    + intros r'. rewrite Hq. intros [= H]. revert H.
      apply reply_not_credit. cbn in Hle. lia.
    + intros Hb Hm Hs. rewrite Hq.
      rewrite (classify_first _ Rules.Loan Hl) in Hc0.
      * injection Hc0 as <-. reflexivity.
      * intros t' Hlt. destruct t'; cbn in Hlt; try lia; assumption.
Qed.

Lemma first_match_wins_witness :
  is_ascii starter_phone = true
  /\ is_ascii "Is my LOAN hurting my credit?" = true
  /\ int_record (get_financial_record starter_phone (starter_world noon))
  /\ "Is my LOAN hurting my credit?" <> ""
  /\ query (request starter_phone "Is my LOAN hurting my credit?") (starter_world noon)
     = Ok "Your current loan is ₹300,000.".
Proof.
  assert (Hne : "Is my LOAN hurting my credit?" <> "") by discriminate.
  split; [reflexivity|]. split; [reflexivity|].
  split; [exact starter_record_int|]. split; [exact Hne|].
  destruct (first_match_wins starter_phone "Is my LOAN hurting my credit?"
              (starter_world noon) eq_refl eq_refl starter_record_int Hne)
    as (_ & _ & H).
  destruct (H eq_refl eq_refl) as [_ Hloan].
  exact (Hloan eq_refl eq_refl eq_refl).
Defined.

(* ===================================================================== *)
(** ** The single-field rules *)
(* ===================================================================== *)

(** What a single-field rule answers depends on its own field only; the
    rest of the record may hold anything. *)
Lemma query_field_absent (phone message : string) (w : World) (t : Rules.topic) :
  Rules.classify (PyStr.lower message) = Some t -> t <> Rules.NetWorth ->
  get_financial_record phone w !! Rules.field_name t = None ->
  query (request phone message) w = Ok (Rules.unavailable t).
Proof.
  intros Hc Ht Hf. pose proof (classify_nonempty _ _ Hc) as Hne. run_query.
  destruct (PyStr.lower message) as [|c m] eqn:Em.
  { apply (proj1 (lower_empty message)) in Em. contradiction. }
  cbn [truthy negb String.eqb]. rewrite <- Em in *. clear Em.
  split_classify Hc; injection Hc as <-; try congruence;
    cbn [Rules.field_name] in Hf; unfold dict_get; rewrite Hf; reflexivity.
Qed.

Lemma query_field_int (phone message : string) (w : World) (t : Rules.topic) (v : Z) :
  Rules.classify (PyStr.lower message) = Some t -> t <> Rules.NetWorth ->
  get_financial_record phone w !! Rules.field_name t = Some (VInt v) ->
  query (request phone message) w = Ok (Rules.available t v).
Proof.
  intros Hc Ht Hf. pose proof (classify_nonempty _ _ Hc) as Hne.
  pose proof (record_within_limit _ _ _ _ Hf) as Hlim. run_query.
  destruct (PyStr.lower message) as [|c m] eqn:Em.
  { apply (proj1 (lower_empty message)) in Em. contradiction. }
  cbn [truthy negb String.eqb]. rewrite <- Em in *. clear Em.
  split_classify Hc; injection Hc as <-; try congruence;
    cbn [Rules.field_name] in Hf; unfold dict_get; rewrite Hf;
    cbn [default from_option id is_none eq_zero fmt_comma fmt_plain Rules.available];
    rewrite ?Hlim;
    try (destruct (v =? 0)%Z); reflexivity.
Qed.

Lemma available_zero_differs (t : Rules.topic) :
  t <> Rules.NetWorth -> Rules.available t 0 <> Rules.unavailable t.
Proof. destruct t; intros Ht; try congruence; vm_compute; discriminate. Qed.

(** C6, as claimed, fails: a message that matches a single-field rule is
    not always answered by it.  "loan from my bank" contains "loan", the
    record has no loan, and the reply is the bank balance, not the loan
    rule's "unavailable" reply. *)
Lemma earlier_rule_answers_loan_question :
  is_ascii "loan from my bank" = true
  /\ Rules.matches (PyStr.lower "loan from my bank") Rules.Loan = true
  /\ get_financial_record starter_phone
       (world_with (<["bank_balance" := VInt 1200]> ∅) noon) !! "loan" = None
  /\ query (request starter_phone "loan from my bank")
       (world_with (<["bank_balance" := VInt 1200]> ∅) noon)
     = Ok "Your bank balance is ₹1,200."
  /\ query (request starter_phone "loan from my bank")
       (world_with (<["bank_balance" := VInt 1200]> ∅) noon)
     <> Ok (Rules.unavailable Rules.Loan).
Proof.
  split; [reflexivity|]. split; [reflexivity|]. split; [reflexivity|].
  split; [reflexivity|].
  intros H. vm_compute in H. discriminate H.
Qed.

(** C6, amended.  For ASCII text, in the single-field rule that answers
    (the first rule in table order that matches the message), an absent
    field and a field holding zero get different replies: the absent field
    the rule's "unavailable" reply, the zero a reply about the value.  In
    particular the message "loan" gets "You have no active loans or
    liabilities." for [loan = 0] and "I don't have loan / liability
    details for you." without [loan], and a bank balance of 0 is reported
    as "Your bank balance is ₹0.". *)
Theorem absent_is_not_zero (phone : string) (w : World) :
  is_ascii phone = true ->
  let d := get_financial_record phone w in
  (forall message t,
      is_ascii message = true ->
      Rules.classify (PyStr.lower message) = Some t -> t <> Rules.NetWorth ->
      (d !! Rules.field_name t = None ->
       query (request phone message) w = Ok (Rules.unavailable t))
      /\ (d !! Rules.field_name t = Some (VInt 0) ->
          query (request phone message) w = Ok (Rules.available t 0)
          /\ Rules.available t 0 <> Rules.unavailable t))
  /\ (d !! "loan" = Some (VInt 0) ->
      query (request phone "loan") w = Ok "You have no active loans or liabilities.")
  /\ (d !! "loan" = None ->
      query (request phone "loan") w
      = Ok "I don't have loan / liability details for you.")
  /\ (forall message,
        is_ascii message = true ->
        Rules.classify (PyStr.lower message) = Some Rules.BankBalance ->
        d !! "bank_balance" = Some (VInt 0) ->
        query (request phone message) w = Ok "Your bank balance is ₹0.").
Proof.
  intros _ d. subst d. split; [|split; [|split]].
  - intros message t _ Hc Ht. split.
    + intros Hf. apply (query_field_absent _ _ _ _ Hc Ht Hf).
    + intros Hf. split.
      * apply (query_field_int _ _ _ _ _ Hc Ht Hf).
      * apply available_zero_differs, Ht.
  - intros Hf. apply (query_field_int phone "loan" w Rules.Loan 0);
      [reflexivity | discriminate | exact Hf].
  - intros Hf. apply (query_field_absent phone "loan" w Rules.Loan);
      [reflexivity | discriminate | exact Hf].
  - intros message _ Hc Hf.
    apply (query_field_int phone message w Rules.BankBalance 0);
      [exact Hc | discriminate | exact Hf].
Qed.

Lemma absent_is_not_zero_witness :
  is_ascii starter_phone = true
  /\ is_ascii "any debt?" = true
  /\ is_ascii "savings" = true
  /\ query (request starter_phone "any debt?") (world_with (<["loan" := VInt 0]> ∅) noon)
     = Ok "You have no active loans or liabilities."
  /\ query (request starter_phone "any debt?") (world_with ∅ noon)
     = Ok "I don't have loan / liability details for you."
  /\ query (request starter_phone "savings") (world_with (<["bank_balance" := VInt 0]> ∅) noon)
     = Ok "Your bank balance is ₹0.".
Proof.
  split; [reflexivity|]. split; [reflexivity|]. split; [reflexivity|].
  split; [|split].
  - pose proof (absent_is_not_zero starter_phone
                  (world_with (<["loan" := VInt 0]> ∅) noon) eq_refl) as (H & _).
    destruct (H "any debt?" Rules.Loan eq_refl eq_refl) as [_ Hz]; [discriminate|].
    exact (proj1 (Hz eq_refl)).
  - pose proof (absent_is_not_zero starter_phone (world_with ∅ noon) eq_refl) as (H & _).
    destruct (H "any debt?" Rules.Loan eq_refl eq_refl) as [Ha _]; [discriminate|].
    exact (Ha eq_refl).
  - pose proof (absent_is_not_zero starter_phone
                  (world_with (<["bank_balance" := VInt 0]> ∅) noon) eq_refl)
      as (_ & _ & _ & H).
    exact (H "savings" eq_refl eq_refl eq_refl).
Defined.

(* ===================================================================== *)
(** ** A phone without a record *)
(* ===================================================================== *)

(** C7. An ASCII phone that the finance document, as [load_json] returns
    it, does not hold (also when the document cannot be read) gives the
    empty record, not an error, and every single-field rule then gives its
    "unavailable" reply; "check my stocks" gives "I don't have stock
    holdings information for you.". *)
Theorem missing_record_is_empty (phone : string) (w : World) :
  is_ascii phone = true ->
  json_load (FINANCE_FILE w) !! PyStr.strip phone = None ->
  get_financial_record phone w = ∅
  /\ (forall message t,
        is_ascii message = true ->
        Rules.classify (PyStr.lower message) = Some t -> t <> Rules.NetWorth ->
        query (request phone message) w = Ok (Rules.unavailable t))
  /\ query (request phone "check my stocks") w
     = Ok "I don't have stock holdings information for you.".
Proof.
  intros _ Hmiss.
  assert (He : get_financial_record phone w = ∅)
    by (unfold get_financial_record; rewrite Hmiss; reflexivity).
  split; [exact He|]. split.
  - intros message t _ Hc Ht. apply (query_field_absent _ _ _ _ Hc Ht).
    rewrite He. apply lookup_empty.
  - apply (query_field_absent phone "check my stocks" w Rules.Stocks);
      [reflexivity | discriminate |].
    rewrite He. apply lookup_empty.
Qed.

Lemma missing_record_is_empty_witness :
  is_ascii " 0000 " = true
  /\ json_load (FINANCE_FILE (starter_world noon)) !! PyStr.strip " 0000 " = None
  /\ query (request " 0000 " "check my stocks") (starter_world noon)
     = Ok "I don't have stock holdings information for you.".
Proof.
  split; [reflexivity|]. split; [reflexivity|].
  exact (proj2 (proj2 (missing_record_is_empty " 0000 " (starter_world noon)
                         eq_refl eq_refl))).
Defined.

(* ===================================================================== *)
(** ** Net worth *)
(* ===================================================================== *)

(** C5, as claimed, fails twice.  A message matched by the net-worth rule
    is answered by an earlier rule that matches too: "what are my stocks
    worth" gets the stocks reply.  And when the net-worth rule answers, a
    result of more than 4300 digits is not written: the [,] format raises
    ValueError (here the stocks are 4300 nines and the loan is -1). *)
Lemma net_worth_reply_not_given :
  is_ascii "what are my stocks worth" = true
  /\ Rules.matches (PyStr.lower "what are my stocks worth") Rules.NetWorth = true
  /\ query (request starter_phone "what are my stocks worth") (starter_world noon)
     = Ok "Your stock holdings are worth ₹400,000."
  /\ Rules.classify (PyStr.lower "total worth") = Some Rules.NetWorth
  /\ get_financial_record starter_phone
       (world_with (<["stocks" := VInt largest_int]> (<["loan" := VInt (-1)]> ∅)) noon)
     = <["stocks" := VInt largest_int]> (<["loan" := VInt (-1)]> ∅)
  /\ query (request starter_phone "total worth")
       (world_with (<["stocks" := VInt largest_int]> (<["loan" := VInt (-1)]> ∅)) noon)
     = Raise ValueError.
Proof.
  split; [reflexivity|]. split; [reflexivity|]. split; [reflexivity|].
  split; [reflexivity|].
  split; [apply world_with_record; vm_compute; reflexivity|].
  vm_compute. reflexivity.
Qed.

(** C5, amended.  When the net-worth rule is the one that answers an ASCII
    message (it matches and no earlier rule does), absent fields count as
    0, net worth is bank balance + mutual funds + stocks - loan, and, if
    that has at most 4300 digits, a negative result is reported by its
    absolute value as liabilities exceeding assets and any other as the
    total net worth; with more digits the handler raises ValueError.  The
    starter record asked "what's my net worth" gives "Your total net
    worth is ₹1,550,000.". *)
Theorem net_worth_rule :
  (forall phone message w,
      is_ascii phone = true -> is_ascii message = true ->
      int_record (get_financial_record phone w) ->
      Rules.classify (PyStr.lower message) = Some Rules.NetWorth ->
      let d := get_financial_record phone w in
      let bank_balance := default 0%Z (int_field d "bank_balance") in
      let mutual_funds := default 0%Z (int_field d "mutual_funds") in
      let stocks := default 0%Z (int_field d "stocks") in
      let loan := default 0%Z (int_field d "loan") in
      let net_worth := (bank_balance + mutual_funds + stocks - loan)%Z in
      query (request phone message) w
      = if PyInt.too_long net_worth then Raise ValueError
        else Ok (if (net_worth <? 0)%Z
                 then "Your liabilities exceed your assets by ₹"
                      ++ PyInt.format_comma (Z.abs net_worth) ++ "."
                 else "Your total net worth is ₹" ++ PyInt.format_comma net_worth ++ "."))
  /\ (forall phone w,
        is_ascii phone = true ->
        get_financial_record phone w = starter_record ->
        query (request phone "what's my net worth") w
        = Ok "Your total net worth is ₹1,550,000.").
Proof.
  split.
  - intros phone message w _ _ Hd Hc. cbv zeta. rewrite (query_net_worth _ _ _ Hd Hc).
    unfold Rules.net_worth_reply, Rules.net_worth, Rules.rupees, record_of;
      cbn [Rules.bank_balance Rules.mutual_funds Rules.stocks Rules.loan].
    destruct (PyInt.too_long _); [reflexivity|].
    destruct (_ <? 0)%Z; reflexivity.
  - intros phone w _ Hrec. rewrite (query_net_worth phone "what's my net worth" w).
    + rewrite Hrec. reflexivity.
    + rewrite Hrec. exact starter_record_int.
    + reflexivity.
Qed.

Lemma net_worth_rule_witness :
  is_ascii starter_phone = true
  /\ is_ascii "net worth" = true
  /\ is_ascii "Am I worth anything?" = true
  /\ query (request starter_phone "what's my net worth") (starter_world noon)
     = Ok "Your total net worth is ₹1,550,000."
  /\ query (request starter_phone "net worth")
       (world_with (<["bank_balance" := VInt 500]> ∅) noon)
     = Ok "Your total net worth is ₹500."
  /\ query (request starter_phone "Am I worth anything?")
       (world_with (<["stocks" := VInt 2500]> (<["loan" := VInt 1240000]> ∅)) noon)
     = Ok "Your liabilities exceed your assets by ₹1,237,500.".
Proof.
  destruct net_worth_rule as [Hgen Hstarter].
  split; [reflexivity|]. split; [reflexivity|]. split; [reflexivity|].
  split; [|split].
  - apply Hstarter; reflexivity.
  - rewrite (Hgen starter_phone "net worth"
               (world_with (<["bank_balance" := VInt 500]> ∅) noon) eq_refl eq_refl).
    + reflexivity.
    + rewrite world_with_record by reflexivity.
      apply int_record_insert, int_record_empty.
    + reflexivity.
  - rewrite (Hgen starter_phone "Am I worth anything?"
               (world_with (<["stocks" := VInt 2500]> (<["loan" := VInt 1240000]> ∅)) noon)
               eq_refl eq_refl).
    + reflexivity.
    + rewrite world_with_record by reflexivity.
      repeat apply int_record_insert. apply int_record_empty.
    + reflexivity.
Defined.

(* ===================================================================== *)
(** ** Substring matching *)
(* ===================================================================== *)

(** C10. Triggers are matched as raw substrings of the lower-cased message:
    "I am comfortable" contains "mf" inside "comfortable", so with a
    mutual-funds value on record it gets the mutual-funds reply and not the
    fallback reply. *)
Theorem substring_inside_word (phone : string) (w : World) (v : Z) :
  get_financial_record phone w !! "mutual_funds" = Some (VInt v) ->
  PyStr.contains "mf" (PyStr.lower "I am comfortable") = true
  /\ Rules.classify (PyStr.lower "I am comfortable") = Some Rules.MutualFunds
  /\ query (request phone "I am comfortable") w
     = Ok ("Your mutual funds are worth ₹" ++ PyInt.format_comma v ++ ".")
  /\ forall echo t,
       query (request phone "I am comfortable") w <> Ok (Rules.fallback echo t).
Proof.
  intros Hf.
  assert (Hq : query (request phone "I am comfortable") w
               = Ok ("Your mutual funds are worth ₹" ++ PyInt.format_comma v ++ ".")).
  { apply (query_field_int phone "I am comfortable" w Rules.MutualFunds v);
      [reflexivity | discriminate | exact Hf]. }
  split; [reflexivity|]. split; [reflexivity|]. split; [exact Hq|].
  intros echo t. rewrite Hq. unfold Rules.fallback. simpl. discriminate.
Qed.

Lemma substring_inside_word_witness :
  get_financial_record starter_phone (starter_world noon) !! "mutual_funds"
  = Some (VInt 600000)
  /\ query (request starter_phone "I am comfortable") (starter_world noon)
     = Ok "Your mutual funds are worth ₹600,000.".
Proof.
  split; [reflexivity|].
  exact (proj1 (proj2 (proj2
    (substring_inside_word starter_phone (starter_world noon) 600000 eq_refl)))).
Defined.

(* ===================================================================== *)
(** ** Determinism *)
(* ===================================================================== *)

(** The reply is a function of the message, the record and the time. *)
Lemma query_same_inputs (phone1 phone2 message : string) (w1 w2 : World) :
  get_financial_record phone1 w1 = get_financial_record phone2 w2 ->
  now w1 = now w2 ->
  query (request phone1 message) w1 = query (request phone2 message) w2.
Proof.
  intros Hrec Hnow. run_query. rewrite Hrec, Hnow.
  destruct (negb (truthy (VStr (PyStr.lower message)))); [reflexivity|].
  case_tests; case_matches; reflexivity.
Qed.

(** Outside the fallback the time plays no part. *)
Lemma query_time_independent (phone1 phone2 message : string) (w1 w2 : World) :
  get_financial_record phone1 w1 = get_financial_record phone2 w2 ->
  message = "" \/ Rules.classify (PyStr.lower message) <> None ->
  query (request phone1 message) w1 = query (request phone2 message) w2.
Proof.
  intros Hrec Hcase.
  destruct Hcase as [-> | Hc]; [rewrite !query_empty; reflexivity|].
  run_query. rewrite Hrec.
  destruct (negb (truthy (VStr (PyStr.lower message)))); [reflexivity|].
  unfold Rules.classify, Rules.table, find, Rules.matches, Rules.triggers in Hc.
  case_tests; try congruence; case_matches; reflexivity.
Qed.

Lemma append_assoc (s t u : string) : (s ++ t) ++ u = s ++ (t ++ u).
Proof. induction s as [|c s IH]; simpl; [reflexivity|]. rewrite IH. reflexivity. Qed.

(** C8. For ASCII text, two calls with the same message and the same
    record give the same result when the clock reads the same, and whatever
    the clock reads when the message is empty or a rule matches; in the
    fallback the two replies are one text up to the timestamp written into
    it. *)
Theorem query_deterministic (phone1 phone2 message : string) (w1 w2 : World) :
  is_ascii phone1 = true -> is_ascii phone2 = true -> is_ascii message = true ->
  get_financial_record phone1 w1 = get_financial_record phone2 w2 ->
  (now w1 = now w2 ->
   query (request phone1 message) w1 = query (request phone2 message) w2)
  /\ (message = "" \/ Rules.classify (PyStr.lower message) <> None ->
      query (request phone1 message) w1 = query (request phone2 message) w2)
  /\ (message <> "" -> Rules.classify (PyStr.lower message) = None ->
      exists head,
        query (request phone1 message) w1 = Ok (head ++ strftime (now w1) ++ ")")
        /\ query (request phone2 message) w2 = Ok (head ++ strftime (now w2) ++ ")")).
Proof.
  intros _ _ _ Hrec. split; [|split].
  - apply query_same_inputs, Hrec.
  - apply query_time_independent, Hrec.
  - intros Hne Hc.
    exists ("I am still Learning, I don't have information about it. " ++ dquote
            ++ PyStr.lower message ++ dquote ++ " — (server time: ").
    rewrite !(query_fallback _ _ _ Hne Hc). unfold Rules.fallback.
    rewrite !append_assoc. split; reflexivity.
Qed.

Lemma query_deterministic_witness :
  is_ascii starter_phone = true
  /\ is_ascii "my CIBIL score" = true
  /\ is_ascii "hi" = true
  /\ query (request starter_phone "my CIBIL score") (starter_world noon)
     = query (request starter_phone "my CIBIL score") (starter_world midnight)
  /\ exists head,
       query (request starter_phone "hi") (starter_world noon)
       = Ok (head ++ "2024-01-15 12:00:00" ++ ")")
       /\ query (request starter_phone "hi") (starter_world midnight)
          = Ok (head ++ "2025-12-31 00:00:00" ++ ")").
Proof.
  split; [reflexivity|]. split; [reflexivity|]. split; [reflexivity|].
  split.
  - apply (query_deterministic starter_phone starter_phone "my CIBIL score"
             (starter_world noon) (starter_world midnight)
             eq_refl eq_refl eq_refl eq_refl).
    right. discriminate.
  - apply (query_deterministic starter_phone starter_phone "hi"
             (starter_world noon) (starter_world midnight)
             eq_refl eq_refl eq_refl eq_refl);
      [discriminate | reflexivity].
Defined.

(* ===================================================================== *)
(** ** How numbers are written *)
(* ===================================================================== *)

Lemma str_chars (z : Z) :
  all_chars (fun c => is_digit c || Ascii.eqb c "-") (PyInt.str z) = true.
Proof.
  unfold PyInt.str. rewrite all_chars_app. apply andb_true_intro. split.
  - destruct (z <? 0)%Z; reflexivity.
  - generalize (digits_all_digit (Z.abs_N z)). apply all_chars_impl.
    intros c ->. reflexivity.
Qed.

Lemma str_no_comma (z : Z) :
  all_chars (fun c => negb (is_comma c)) (PyInt.str z) = true.
Proof.
  generalize (str_chars z). apply all_chars_impl. intros c Hc.
  unfold is_comma. destruct (Ascii.eqb c ",") eqn:E; [|reflexivity].
  apply Ascii.eqb_eq in E. subst c. discriminate Hc.
Qed.

(** The credit-score reply has no rupee sign in it. *)
Lemma credit_reply_no_rupee (z : Z) :
  PyStr.contains "₹" ("Your credit score is " ++ PyInt.str z ++ ".") = false.
Proof.
  apply contains_absent_head. rewrite !all_chars_app.
  apply andb_true_intro. split; [reflexivity|].
  apply andb_true_intro. split; [|reflexivity].
  generalize (str_chars z). apply all_chars_impl. intros c Hc.
  destruct (Ascii.eqb c "226") eqn:E; [|reflexivity].
  apply Ascii.eqb_eq in E. subst c. discriminate Hc.
Qed.

(** C9, as claimed, fails for the loan rule at the value 0: the reply
    then carries no amount at all. *)
Lemma zero_loan_shows_no_amount :
  Rules.classify (PyStr.lower "loan") = Some Rules.Loan
  /\ get_financial_record starter_phone (world_with (<["loan" := VInt 0]> ∅) noon)
     !! "loan" = Some (VInt 0)
  /\ query (request starter_phone "loan") (world_with (<["loan" := VInt 0]> ∅) noon)
     = Ok "You have no active loans or liabilities."
  /\ PyStr.contains "₹" "You have no active loans or liabilities." = false
  /\ PyStr.contains (PyInt.format_comma 0) "You have no active loans or liabilities."
     = false.
Proof. repeat split; reflexivity. Qed.

(** C9, amended.  When a money rule answers an ASCII message from an
    integer on record (for the loan rule: an integer other than 0), the
    reply writes the rupee sign and then the amount with a comma before
    every group of three digits and nothing after the digits but the
    closing full stop: taking the commas out leaves the plain numeral.  The
    credit-score reply writes the plain numeral, with no rupee sign and no
    comma.  850000 is written 850,000. *)
Theorem amounts_are_grouped (phone message : string) (w : World)
    (t : Rules.topic) (v : Z) :
  is_ascii phone = true -> is_ascii message = true ->
  Rules.classify (PyStr.lower message) = Some t ->
  get_financial_record phone w !! Rules.field_name t = Some (VInt v) ->
  (t = Rules.BankBalance \/ t = Rules.MutualFunds \/ t = Rules.Stocks
   \/ (t = Rules.Loan /\ v <> 0%Z) ->
   query (request phone message) w
   = Ok (Rules.money_lead t ++ "₹" ++ PyInt.format_comma v ++ ".")
   /\ grouped_amount (PyInt.format_comma v) = true
   /\ ungroup (PyInt.format_comma v) = PyInt.str v)
  /\ (t = Rules.CreditScore ->
      query (request phone message) w
      = Ok ("Your credit score is " ++ PyInt.str v ++ ".")
      /\ plain_integer (PyInt.str v) = true
      /\ all_chars (fun c => negb (is_comma c)) (PyInt.str v) = true
      /\ PyStr.contains "₹" ("Your credit score is " ++ PyInt.str v ++ ".") = false)
  /\ PyInt.format_comma 850000 = "850,000".
Proof.
  intros _ _ Hc Hf. split; [|split; [|reflexivity]].
  - intros Ht. split; [|split; [apply format_comma_grouped | apply ungroup_format_comma]].
    rewrite (query_field_int _ _ _ _ _ Hc) by
      (try exact Hf; destruct Ht as [->|[->|[->|[-> _]]]]; discriminate).
    destruct Ht as [->|[->|[->|[-> Hv]]]]; try reflexivity.
    cbn [Rules.available]. apply Z.eqb_neq in Hv. rewrite Hv. reflexivity.
  - intros ->.
    rewrite (query_field_int _ _ _ _ _ Hc) by (try exact Hf; discriminate).
    split; [reflexivity|]. split; [apply str_plain|].
    split; [apply str_no_comma | apply credit_reply_no_rupee].
Qed.

Lemma amounts_are_grouped_witness :
  is_ascii starter_phone = true
  /\ is_ascii "How much DEBT do I carry?" = true
  /\ is_ascii "cibil" = true
  /\ query (request starter_phone "How much DEBT do I carry?") (starter_world noon)
     = Ok "Your current loan is ₹300,000."
  /\ query (request starter_phone "cibil") (world_with (<["credit_score" := VInt 1820]> ∅) noon)
     = Ok "Your credit score is 1820.".
Proof.
  split; [reflexivity|]. split; [reflexivity|]. split; [reflexivity|].
  split.
  - destruct (amounts_are_grouped starter_phone "How much DEBT do I carry?"
                (starter_world noon) Rules.Loan 300000 eq_refl eq_refl eq_refl eq_refl)
      as [H _].
    destruct H as [Hq _].
    + right. right. right. split; [reflexivity | discriminate].
    + exact Hq.
  - assert (Hf : get_financial_record starter_phone
                   (world_with (<["credit_score" := VInt 1820]> ∅) noon)
                 !! Rules.field_name Rules.CreditScore = Some (VInt 1820))
      by reflexivity.
    destruct (amounts_are_grouped starter_phone "cibil"
                (world_with (<["credit_score" := VInt 1820]> ∅) noon)
                Rules.CreditScore 1820 eq_refl eq_refl eq_refl Hf) as (_ & H & _).
    exact (proj1 (H eq_refl)).
Defined.

(* ===================================================================== *)
(** ** Registration and login *)
(* ===================================================================== *)

Lemma py_or_truthy (a b : value) : truthy a = true -> py_or a b = a.
Proof. unfold py_or. intros ->. reflexivity. Qed.

Lemma truthy_py_or_empty (a : value) : truthy (py_or a (VStr "")) = truthy a.
Proof. unfold py_or. destruct (truthy a) eqn:E; [exact E | reflexivity]. Qed.

Lemma truthy_text (s : string) : truthy (VStr s) = true <-> s <> "".
Proof. destruct s; simpl; split; congruence. Qed.

Lemma falsy_text (s : string) : truthy (VStr s) = false <-> s = "".
Proof. destruct s; simpl; split; congruence. Qed.

Lemma dict_get_present (d : gmap string value) (key : string) (v : value) :
  d !! key = Some v -> dict_get d key = v.
Proof. unfold dict_get. intros ->. reflexivity. Qed.

Lemma py_or_text_present (d : gmap string value) (key s : string) :
  d !! key = Some (VStr s) -> py_or (dict_get d key) (VStr "") = VStr s.
Proof. intros H. rewrite (dict_get_present _ _ _ H). apply py_or_str. Qed.

Lemma value_eqb_eq (a b : value) : Server.value_eqb a b = true <-> a = b.
Proof.
  destruct a, b; simpl; split; try congruence.
  - intros H%Z.eqb_eq. congruence.
  - intros [= ->]. apply Z.eqb_refl.
  - intros H%String.eqb_eq. congruence.
  - intros [= ->]. apply String.eqb_refl.
Qed.

Lemma value_eqb_neq (a b : value) : Server.value_eqb a b = false <-> a <> b.
Proof.
  destruct (Server.value_eqb a b) eqn:E.
  - apply value_eqb_eq in E. split; congruence.
  - split; [|reflexivity]. intros _ H. apply value_eqb_eq in H. congruence.
Qed.

(** Unfold a handler down to its tests. *)
Ltac run_server :=
  unfold Server.login, Server.register, Server.get_mcp, Server.update_finance,
    Server.bind, Server.lift, Server.ret, Server.load_json, Server.save_json,
    Server.H;
  cbv beta iota zeta; cbn [default from_option id].

Ltac push_disk :=
  repeat (rewrite app_if; cbv beta);
  cbn [Server.read Server.write Server.users_file Server.finance_file];
  repeat match goal with
    | |- context [Server.users_file ?d] => progress fold (users_of d)
    | |- context [Server.finance_file ?d] => progress fold (finances_of d)
    end.

(** The whole of [register] on a body whose name and phone are texts (or
    absent, which counts as the empty text). *)
Lemma register_spec (data : gmap string value) (name phone : string) (d : Server.Disk) :
  py_or (dict_get data "name") (VStr "") = VStr name ->
  py_or (dict_get data "phone") (VStr "") = VStr phone ->
  Server.register (Some data) d =
  if negb (truthy (VStr (PyStr.strip name)))
     || negb (truthy (VStr (PyStr.strip phone)))
     || negb (truthy (dict_get data "password"))
  then (Ok (Server.Text "Missing name/phone/password" 400), d)
  else if bool_decide (is_Some (users_of d !! PyStr.strip phone))
  then (Ok (Server.Jsonify
              (Server.JObject
                 [("success", Server.JBool false);
                  ("message", Server.JValue (VStr "Phone already registered"))])
              409), d)
  else (Ok (Server.Jsonify
              (Server.JObject
                 [("success", Server.JBool true);
                  ("message", Server.JValue (VStr "Registered successfully"))])
              200),
        {| Server.users_file :=
             Server.Document (<[PyStr.strip phone := data]> (users_of d));
           Server.finance_file :=
             Server.Document
               (Server.setdefault (PyStr.strip phone) Server.blank_finance
                  (finances_of d)) |}).
Proof.
  intros Hn Hp. run_server. rewrite Hn, Hp, truthy_py_or_empty.
  cbn [call_strip]. cbv beta iota. push_disk. reflexivity.
Qed.

(** A body that passes the checks of [register]. *)
Lemma register_fresh (data : gmap string value) (name phone : string)
    (password : value) (d : Server.Disk) :
  data !! "name" = Some (VStr name) -> data !! "phone" = Some (VStr phone) ->
  data !! "password" = Some password ->
  PyStr.strip name <> "" -> PyStr.strip phone <> "" -> truthy password = true ->
  users_of d !! PyStr.strip phone = None ->
  Server.register (Some data) d =
  (Ok (Server.Jsonify
         (Server.JObject
            [("success", Server.JBool true);
             ("message", Server.JValue (VStr "Registered successfully"))])
         200),
   {| Server.users_file :=
        Server.Document (<[PyStr.strip phone := data]> (users_of d));
      Server.finance_file :=
        Server.Document
          (Server.setdefault (PyStr.strip phone) Server.blank_finance
             (finances_of d)) |}).
Proof.
  intros Hn Hp Hw Hname Hphone Hpw Hfresh.
  rewrite (register_spec data name phone d)
    by (apply py_or_text_present; assumption).
  rewrite (dict_get_present _ _ _ Hw), Hpw.
  rewrite (proj2 (truthy_text _) Hname), (proj2 (truthy_text _) Hphone).
  cbn [negb orb]. rewrite Hfresh.
  rewrite bool_decide_eq_false_2 by apply is_Some_None. reflexivity.
Qed.

Lemma setdefault_lookup {A} (key : string) (dflt : A) (m : gmap string A) (q : string) :
  Server.setdefault key dflt m !! q
  = if decide (key = q) then Some (default dflt (m !! key)) else m !! q.
Proof.
  unfold Server.setdefault. destruct (m !! key) as [x|] eqn:E.
  - destruct (decide (key = q)) as [<-|]; [rewrite E|]; reflexivity.
  - rewrite lookup_insert. destruct (decide (key = q)); reflexivity.
Qed.

(** The whole of [login] on a body whose phone is a text. *)
Lemma login_spec (data : gmap string value) (phone : string) (d : Server.Disk) :
  py_or (dict_get data "phone") (VStr "") = VStr phone ->
  Server.login (Some data) d =
  (Ok (if negb (truthy (VStr (PyStr.strip phone)))
          || negb (truthy (dict_get data "password"))
       then Server.Text "Missing phone or password" 400
       else
         let user := users_of d !! PyStr.strip phone in
         if Server.not_user user
            || negb (Server.value_eqb (dict_get (default ∅ user) "password")
                       (py_or (dict_get data "password") (VStr "")))
         then Server.Text "Invalid credentials" 401
         else Server.Jsonify
                (Server.JObject
                   [("success", Server.JBool true);
                    ("user",
                     Server.JObject
                       [("phone", Server.JValue (VStr (PyStr.strip phone)));
                        ("name", Server.JValue (dict_get (default ∅ user) "name"))]);
                    ("finance",
                     Server.JDict (default ∅ (finances_of d !! PyStr.strip phone)))])
                200),
   d).
Proof.
  intros Hp. run_server. rewrite Hp, truthy_py_or_empty.
  cbn [call_strip]. cbv beta iota. push_disk.
  repeat match goal with
    | |- context [if ?b then _ else _] => destruct b
    end; reflexivity.
Qed.

Lemma not_user_present (u : gmap string value) (key : string) (v : value) :
  u !! key = Some v -> Server.not_user (Some u) = false.
Proof.
  intros H. unfold Server.not_user. apply bool_decide_eq_false_2.
  intros ->. rewrite lookup_empty in H. discriminate.
Qed.

Lemma users_of_disk (u f : Server.file) :
  users_of {| Server.users_file := u; Server.finance_file := f |}
  = match u with Server.Document doc => doc | _ => ∅ end.
Proof. reflexivity. Qed.

Lemma finances_of_disk (u f : Server.file) :
  finances_of {| Server.users_file := u; Server.finance_file := f |}
  = match f with Server.Document doc => doc | _ => ∅ end.
Proof. reflexivity. Qed.

(** X1. For ASCII names and phones, a registration that passes the checks
    can be followed by a login:
    any login body whose phone strips to the registered phone and whose
    password is the registered value gets the success answer, with the
    stripped phone, the name as it was typed and the finance record (the
    record the phone had, else the blank one); the disk is as the
    registration left it. *)
Theorem register_then_login (data ldata : gmap string value)
    (name phone phone' : string) (password : value) (d : Server.Disk) :
  is_ascii name = true -> is_ascii phone = true -> is_ascii phone' = true ->
  data !! "name" = Some (VStr name) -> data !! "phone" = Some (VStr phone) ->
  data !! "password" = Some password ->
  PyStr.strip name <> "" -> PyStr.strip phone <> "" -> truthy password = true ->
  users_of d !! PyStr.strip phone = None ->
  ldata !! "phone" = Some (VStr phone') -> PyStr.strip phone' = PyStr.strip phone ->
  ldata !! "password" = Some password ->
  let d' := snd (Server.register (Some data) d) in
  fst (Server.register (Some data) d)
  = Ok (Server.Jsonify
          (Server.JObject
             [("success", Server.JBool true);
              ("message", Server.JValue (VStr "Registered successfully"))])
          200)
  /\ Server.login (Some ldata) d'
     = (Ok (Server.Jsonify
              (Server.JObject
                 [("success", Server.JBool true);
                  ("user",
                   Server.JObject
                     [("phone", Server.JValue (VStr (PyStr.strip phone)));
                      ("name", Server.JValue (VStr name))]);
                  ("finance",
                   Server.JDict
                     (default Server.blank_finance
                        (finances_of d !! PyStr.strip phone)))])
              200),
        d').
Proof.
  intros _ _ _ Hn Hp Hw Hname Hphone Hpw Hfresh Hlp Hstrip Hlw d'. subst d'.
  rewrite (register_fresh data name phone password d) by assumption.
  cbn [fst snd]. split; [reflexivity|].
  rewrite (login_spec ldata phone') by (apply py_or_text_present; exact Hlp).
  rewrite Hstrip, users_of_disk, finances_of_disk.
  rewrite (dict_get_present _ _ _ Hlw), Hpw, (py_or_truthy _ _ Hpw).
  rewrite (proj2 (truthy_text _) Hphone). cbn [negb orb].
  cbv zeta. rewrite lookup_insert_eq. cbn [default from_option id].
  rewrite (not_user_present _ _ _ Hn), (dict_get_present _ _ _ Hw).
  rewrite (proj2 (value_eqb_eq password password) eq_refl). cbn [negb orb].
  rewrite (dict_get_present _ _ _ Hn), setdefault_lookup.
  rewrite decide_True by reflexivity. reflexivity.
Qed.

Lemma register_then_login_witness :
  Server.login (credentials VNone (VStr "700100") (VStr "s3cret"))
    (snd (Server.register
            (credentials (VStr " Asha Rao ") (VStr " 700100 ") (VStr "s3cret"))
            (Server.startup
               {| Server.users_file := Server.Missing;
                  Server.finance_file := Server.Missing |})))
  = (Ok (Server.Jsonify
           (Server.JObject
              [("success", Server.JBool true);
               ("user",
                Server.JObject
                  [("phone", Server.JValue (VStr "700100"));
                   ("name", Server.JValue (VStr " Asha Rao "))]);
               ("finance", Server.JDict Server.blank_finance)])
           200),
     snd (Server.register
            (credentials (VStr " Asha Rao ") (VStr " 700100 ") (VStr "s3cret"))
            (Server.startup
               {| Server.users_file := Server.Missing;
                  Server.finance_file := Server.Missing |}))).
Proof.
  refine (proj2 (register_then_login
            (<["name" := VStr " Asha Rao "]> (<["phone" := VStr " 700100 "]>
               (<["password" := VStr "s3cret"]> ∅)))
            (<["name" := VNone]> (<["phone" := VStr "700100"]>
               (<["password" := VStr "s3cret"]> ∅)))
            " Asha Rao " " 700100 " "700100" (VStr "s3cret")
            (Server.startup
               {| Server.users_file := Server.Missing;
                  Server.finance_file := Server.Missing |})
            _ _ _ _ _ _ _ _ _ _ _ _ _));
    try reflexivity; discriminate.
Defined.

(** X2. For ASCII names and phones, a phone is registered once: a second
    registration whose phone
    strips to a registered one gets the 409 answer and changes nothing on
    disk, so the first body, password included, stays the stored one. *)
Theorem register_twice (data1 data2 : gmap string value)
    (name1 phone1 name2 phone2 : string) (password1 password2 : value)
    (d : Server.Disk) :
  is_ascii name1 = true -> is_ascii phone1 = true ->
  is_ascii name2 = true -> is_ascii phone2 = true ->
  data1 !! "name" = Some (VStr name1) -> data1 !! "phone" = Some (VStr phone1) ->
  data1 !! "password" = Some password1 ->
  PyStr.strip name1 <> "" -> PyStr.strip phone1 <> "" -> truthy password1 = true ->
  users_of d !! PyStr.strip phone1 = None ->
  data2 !! "name" = Some (VStr name2) -> data2 !! "phone" = Some (VStr phone2) ->
  data2 !! "password" = Some password2 ->
  PyStr.strip name2 <> "" -> truthy password2 = true ->
  PyStr.strip phone2 = PyStr.strip phone1 ->
  let d1 := snd (Server.register (Some data1) d) in
  Server.register (Some data2) d1
  = (Ok (Server.Jsonify
           (Server.JObject
              [("success", Server.JBool false);
               ("message", Server.JValue (VStr "Phone already registered"))])
           409),
     d1)
  /\ users_of d1 !! PyStr.strip phone1 = Some data1.
Proof.
  intros _ _ _ _ Hn1 Hp1 Hw1 Hname1 Hphone1 Hpw1 Hfresh Hn2 Hp2 Hw2 Hname2 Hpw2 Hstrip d1.
  subst d1. rewrite (register_fresh data1 name1 phone1 password1 d) by assumption.
  cbn [snd]. rewrite users_of_disk, lookup_insert_eq. split; [|reflexivity].
  rewrite (register_spec data2 name2 phone2)
    by (apply py_or_text_present; assumption).
  rewrite (dict_get_present _ _ _ Hw2), Hpw2, Hstrip.
  rewrite (proj2 (truthy_text _) Hname2), (proj2 (truthy_text _) Hphone1).
  cbn [negb orb]. rewrite users_of_disk, lookup_insert_eq.
  rewrite bool_decide_eq_true_2 by (eexists; reflexivity). reflexivity.
Qed.

Lemma register_twice_witness :
  fst (Server.register
         (credentials (VStr "Mallory") (VStr "700100 ") (VStr "other"))
         (snd (Server.register
                 (credentials (VStr "Asha") (VStr " 700100") (VStr "s3cret"))
                 {| Server.users_file := Server.Unreadable;
                    Server.finance_file := Server.Missing |})))
  = Ok (Server.Jsonify
          (Server.JObject
             [("success", Server.JBool false);
              ("message", Server.JValue (VStr "Phone already registered"))])
          409).
Proof.
  refine (f_equal fst (proj1 (register_twice
            (<["name" := VStr "Asha"]> (<["phone" := VStr " 700100"]>
               (<["password" := VStr "s3cret"]> ∅)))
            (<["name" := VStr "Mallory"]> (<["phone" := VStr "700100 "]>
               (<["password" := VStr "other"]> ∅)))
            "Asha" " 700100" "Mallory" "700100 " (VStr "s3cret") (VStr "other")
            {| Server.users_file := Server.Unreadable;
               Server.finance_file := Server.Missing |}
            _ _ _ _ _ _ _ _ _ _ _ _ _ _ _ _ _)));
    try reflexivity; discriminate.
Defined.

(** X3. For an ASCII name and phone, [register] answers 400 exactly when
    the name or the phone is blank once stripped, or the password is falsy (absent, null, 0 or the empty
    text); the password itself is not stripped, so a password of blanks
    passes.  A 400 leaves the disk as it was, and so does a body that is
    not JSON. *)
Theorem register_missing_fields (data : gmap string value) (name phone : string)
    (d : Server.Disk) :
  is_ascii name = true -> is_ascii phone = true ->
  py_or (dict_get data "name") (VStr "") = VStr name ->
  py_or (dict_get data "phone") (VStr "") = VStr phone ->
  (fst (Server.register (Some data) d)
   = Ok (Server.Text "Missing name/phone/password" 400)
   <-> PyStr.strip name = "" \/ PyStr.strip phone = ""
       \/ truthy (dict_get data "password") = false)
  /\ (fst (Server.register (Some data) d)
      = Ok (Server.Text "Missing name/phone/password" 400) ->
      snd (Server.register (Some data) d) = d)
  /\ Server.register None d = (Ok (Server.Text "Missing name/phone/password" 400), d).
Proof.
  intros _ _ Hn Hp. rewrite (register_spec data name phone d Hn Hp).
  assert (Hiff : negb (truthy (VStr (PyStr.strip name)))
                 || negb (truthy (VStr (PyStr.strip phone)))
                 || negb (truthy (dict_get data "password")) = true
                 <-> PyStr.strip name = "" \/ PyStr.strip phone = ""
                     \/ truthy (dict_get data "password") = false).
  { rewrite <- !falsy_text.
    destruct (truthy (VStr (PyStr.strip name))),
             (truthy (VStr (PyStr.strip phone))),
             (truthy (dict_get data "password")); cbn; intuition congruence. }
  destruct (negb _ || _ || _) eqn:Ec; cbn [fst snd].
  - split; [|split]; try reflexivity.
    split; [intros _; apply Hiff; reflexivity | reflexivity].
  - split; [|split]; try reflexivity.
    + split.
      * destruct (bool_decide _); cbn [fst]; discriminate.
      * intros H%Hiff. discriminate.
    + destruct (bool_decide _); cbn [fst]; discriminate.
Qed.

Lemma register_missing_fields_witness :
  Server.register (credentials (VStr "  ") (VStr "700100") (VStr "s3cret"))
    {| Server.users_file := Server.Missing; Server.finance_file := Server.Missing |}
  = (Ok (Server.Text "Missing name/phone/password" 400),
     {| Server.users_file := Server.Missing; Server.finance_file := Server.Missing |}).
Proof.
  pose proof (register_missing_fields
                (<["name" := VStr "  "]> (<["phone" := VStr "700100"]>
                   (<["password" := VStr "s3cret"]> ∅)))
                "  " "700100"
                {| Server.users_file := Server.Missing;
                   Server.finance_file := Server.Missing |}
                eq_refl eq_refl eq_refl eq_refl) as (Hiff & Hsame & _).
  apply injective_projections; cbn [fst snd].
  - apply Hiff. left. reflexivity.
  - apply Hsame, Hiff. left. reflexivity.
Defined.

(** X4. For an ASCII name and phone, a successful registration stores the
    body as sent under the stripped phone, gives the phone the blank finance record unless it
    already has a record (which is kept), and leaves every other phone's
    user entry and finance record as they were. *)
Theorem register_adds_one (data : gmap string value) (name phone : string)
    (password : value) (d : Server.Disk) :
  is_ascii name = true -> is_ascii phone = true ->
  data !! "name" = Some (VStr name) -> data !! "phone" = Some (VStr phone) ->
  data !! "password" = Some password ->
  PyStr.strip name <> "" -> PyStr.strip phone <> "" -> truthy password = true ->
  users_of d !! PyStr.strip phone = None ->
  let d' := snd (Server.register (Some data) d) in
  users_of d' !! PyStr.strip phone = Some data
  /\ finances_of d' !! PyStr.strip phone
     = Some (default Server.blank_finance (finances_of d !! PyStr.strip phone))
  /\ forall other, other <> PyStr.strip phone ->
       users_of d' !! other = users_of d !! other
       /\ finances_of d' !! other = finances_of d !! other.
Proof.
  intros _ _ Hn Hp Hw Hname Hphone Hpw Hfresh d'. subst d'.
  rewrite (register_fresh data name phone password d) by assumption.
  cbn [snd]. rewrite users_of_disk, finances_of_disk.
  split; [apply lookup_insert_eq|]. split.
  - rewrite setdefault_lookup, decide_True by reflexivity. reflexivity.
  - intros other Hne. split.
    + apply lookup_insert_ne. congruence.
    + rewrite setdefault_lookup, decide_False by congruence. reflexivity.
Qed.

Lemma register_adds_one_witness :
  finances_of
    (snd (Server.register
            (credentials (VStr "Asha") (VStr "700100") (VStr "s3cret"))
            (Server.startup
               {| Server.users_file := Server.Missing;
                  Server.finance_file := Server.Missing |})))
  !! starter_phone = Some starter_record.
Proof.
  pose (data := <["name" := VStr "Asha"]> (<["phone" := VStr "700100"]>
                  (<["password" := VStr "s3cret"]> (∅ : gmap string value)))).
  pose (d := Server.startup {| Server.users_file := Server.Missing;
                               Server.finance_file := Server.Missing |}).
  assert (Hn : data !! "name" = Some (VStr "Asha")) by reflexivity.
  assert (Hp : data !! "phone" = Some (VStr "700100")) by reflexivity.
  assert (Hw : data !! "password" = Some (VStr "s3cret")) by reflexivity.
  assert (Hname : PyStr.strip "Asha" <> "") by discriminate.
  assert (Hphone : PyStr.strip "700100" <> "") by discriminate.
  assert (Hfresh : users_of d !! PyStr.strip "700100" = None) by reflexivity.
  destruct (register_adds_one data "Asha" "700100" (VStr "s3cret") d
              eq_refl eq_refl Hn Hp Hw Hname Hphone eq_refl Hfresh)
    as (_ & _ & Hother).
  destruct (Hother starter_phone) as [_ Hf]; [discriminate|].
  exact Hf.
Defined.

(** *** Documents that can be read back *)

Lemma loadable_empty : loadable ∅.
Proof. apply map_Forall_empty. Qed.

Lemma loadable_insert (key : string) (v : value) (record : gmap string value) :
  within_limit v = true -> loadable record -> loadable (<[key := v]> record).
Proof. intros Hv Hr. apply map_Forall_insert_2; assumption. Qed.

Lemma loadable_union (a b : gmap string value) :
  loadable a -> loadable b -> loadable (a ∪ b).
Proof.
  intros Ha Hb key v Hk. apply lookup_union_Some_raw in Hk as [H | [_ H]].
  - exact (Ha _ _ H).
  - exact (Hb _ _ H).
Qed.

Lemma blank_finance_loadable : loadable Server.blank_finance.
Proof.
  unfold Server.blank_finance.
  repeat (apply loadable_insert; [reflexivity|]). apply loadable_empty.
Qed.

Lemma json_accepts_lookup (doc : gmap string (gmap string value)) (key : string) :
  json_accepts doc = true -> loadable (default ∅ (doc !! key)).
Proof.
  unfold json_accepts. intros Ha%bool_decide_eq_true.
  destruct (doc !! key) as [record|] eqn:E; cbn.
  - exact (Ha _ _ E).
  - apply loadable_empty.
Qed.

Lemma json_accepts_insert (doc : gmap string (gmap string value)) (key : string)
    (record : gmap string value) :
  json_accepts doc = true -> loadable record ->
  json_accepts (<[key := record]> doc) = true.
Proof.
  unfold json_accepts. intros Ha%bool_decide_eq_true Hr.
  apply bool_decide_eq_true. apply map_Forall_insert_2; assumption.
Qed.

Lemma json_accepts_setdefault (doc : gmap string (gmap string value)) (key : string)
    (record : gmap string value) :
  json_accepts doc = true -> loadable record ->
  json_accepts (Server.setdefault key record doc) = true.
Proof.
  intros Ha Hr. unfold Server.setdefault.
  destruct (doc !! key); [exact Ha | apply json_accepts_insert; assumption].
Qed.

(** The record [query] answers from, on a disk whose finance document
    [json.load] accepts. *)
Lemma get_financial_record_disk (phone : string) (d : Server.Disk) (t : datetime) :
  json_accepts (finances_of d) = true ->
  get_financial_record phone (world_of d t)
  = default ∅ (finances_of d !! PyStr.strip phone).
Proof.
  unfold get_financial_record, world_of, finances_of. cbn [FINANCE_FILE].
  destruct (Server.finance_file d) as [| |doc]; cbn [json_load]; try reflexivity.
  intros ->. reflexivity.
Qed.

Lemma blank_finance_int : int_record Server.blank_finance.
Proof.
  unfold Server.blank_finance. repeat apply int_record_insert. apply int_record_empty.
Qed.

(** X5. For ASCII text and a finance document that [json.load] accepts,
    a phone registered without a finance record is answered from zeros, never from "unavailable": every single-field rule reports the
    value 0 (the loan rule says there are no active loans) and the
    net-worth rule reports a total of 0. *)
Theorem fresh_registration_reads_zero (data : gmap string value)
    (name phone : string) (password : value) (d : Server.Disk) :
  is_ascii name = true -> is_ascii phone = true ->
  json_accepts (finances_of d) = true ->
  data !! "name" = Some (VStr name) -> data !! "phone" = Some (VStr phone) ->
  data !! "password" = Some password ->
  PyStr.strip name <> "" -> PyStr.strip phone <> "" -> truthy password = true ->
  users_of d !! PyStr.strip phone = None ->
  finances_of d !! PyStr.strip phone = None ->
  let d' := snd (Server.register (Some data) d) in
  forall message topic t,
    is_ascii message = true ->
    Rules.classify (PyStr.lower message) = Some topic ->
    query (request phone message) (world_of d' t)
    = Ok (match topic with
          | Rules.NetWorth => "Your total net worth is ₹0."
          | _ => Rules.available topic 0
          end).
Proof.
  intros _ _ Ha Hn Hp Hw Hname Hphone Hpw Hfresh Hnone d' message topic t _ Hc.
  subst d'.
  assert (Hrec : get_financial_record phone
                   (world_of (snd (Server.register (Some data) d)) t)
                 = Server.blank_finance).
  { rewrite (register_fresh data name phone password d) by assumption.
    cbn [snd]. rewrite get_financial_record_disk.
    - rewrite finances_of_disk, setdefault_lookup.
      rewrite decide_True by reflexivity. rewrite Hnone. reflexivity.
    - rewrite finances_of_disk.
      apply json_accepts_setdefault; [exact Ha | exact blank_finance_loadable]. }
  assert (Hcase : topic = Rules.NetWorth \/ topic <> Rules.NetWorth)
    by (destruct topic; (left; reflexivity) || (right; discriminate)).
  destruct Hcase as [-> | Hne].
  - assert (Hd : int_record (get_financial_record phone
                                 (world_of (snd (Server.register (Some data) d)) t)))
      by (rewrite Hrec; exact blank_finance_int).
    rewrite (query_net_worth _ _ _ Hd Hc), Hrec. reflexivity.
  - rewrite (query_field_int _ _ _ topic 0 Hc Hne).
    + destruct topic; congruence.
    + rewrite Hrec. destruct topic; try congruence; reflexivity.
Qed.

Lemma fresh_registration_reads_zero_witness :
  query (request "700100" "Do I have any LOAN?")
    (world_of
       (snd (Server.register
               (credentials (VStr "Asha") (VStr "700100") (VStr "s3cret"))
               {| Server.users_file := Server.Missing;
                  Server.finance_file := Server.Missing |}))
       noon)
  = Ok "You have no active loans or liabilities.".
Proof.
  pose (data := <["name" := VStr "Asha"]> (<["phone" := VStr "700100"]>
                  (<["password" := VStr "s3cret"]> (∅ : gmap string value)))).
  pose (d := {| Server.users_file := Server.Missing;
                Server.finance_file := Server.Missing |}).
  assert (Hn : data !! "name" = Some (VStr "Asha")) by reflexivity.
  assert (Hp : data !! "phone" = Some (VStr "700100")) by reflexivity.
  assert (Hw : data !! "password" = Some (VStr "s3cret")) by reflexivity.
  assert (Hname : PyStr.strip "Asha" <> "") by discriminate.
  assert (Hphone : PyStr.strip "700100" <> "") by discriminate.
  assert (Hfresh : users_of d !! PyStr.strip "700100" = None) by reflexivity.
  assert (Hnone : finances_of d !! PyStr.strip "700100" = None) by reflexivity.
  exact (fresh_registration_reads_zero data "Asha" "700100" (VStr "s3cret") d
           eq_refl eq_refl eq_refl Hn Hp Hw Hname Hphone eq_refl Hfresh Hnone
           "Do I have any LOAN?" Rules.Loan noon eq_refl eq_refl).
Defined.

Lemma not_user_spec (user : option (gmap string value)) :
  Server.not_user user = true <-> user = None \/ user = Some ∅.
Proof.
  destruct user as [u|]; simpl.
  - rewrite bool_decide_eq_true. split; [intros ->; auto | intros [[=]|[=]]; auto].
  - split; auto.
Qed.

(** X6. With an ASCII phone that is not blank and a truthy password, [login]
    answers 401 "Invalid credentials" exactly when the stripped phone has no
    user entry, an empty one, or a stored password that differs from the
    one sent (compared as sent: not stripped, case kept); an unknown phone
    and a wrong password get the very same answer.  Otherwise it answers
    with the stored name and the phone's finance record.  The disk is never
    changed. *)
Theorem login_outcome (ldata : gmap string value) (phone : string)
    (password : value) (d : Server.Disk) :
  is_ascii phone = true ->
  ldata !! "phone" = Some (VStr phone) -> ldata !! "password" = Some password ->
  PyStr.strip phone <> "" -> truthy password = true ->
  let user := users_of d !! PyStr.strip phone in
  (fst (Server.login (Some ldata) d) = Ok (Server.Text "Invalid credentials" 401)
   <-> user = None \/ user = Some ∅
       \/ dict_get (default ∅ user) "password" <> password)
  /\ (forall u,
        user = Some u -> u <> ∅ -> dict_get u "password" = password ->
        fst (Server.login (Some ldata) d)
        = Ok (Server.Jsonify
                (Server.JObject
                   [("success", Server.JBool true);
                    ("user",
                     Server.JObject
                       [("phone", Server.JValue (VStr (PyStr.strip phone)));
                        ("name", Server.JValue (dict_get u "name"))]);
                    ("finance",
                     Server.JDict (default ∅ (finances_of d !! PyStr.strip phone)))])
                200))
  /\ snd (Server.login (Some ldata) d) = d.
Proof.
  intros _ Hp Hw Hphone Hpw user.
  rewrite (login_spec ldata phone d) by (apply py_or_text_present; exact Hp).
  cbn [fst snd]. rewrite (dict_get_present _ _ _ Hw), Hpw, (py_or_truthy _ _ Hpw).
  rewrite (proj2 (truthy_text _) Hphone). cbn [negb orb]. cbv zeta. fold user.
  split; [|split; [|reflexivity]].
  - destruct (Server.not_user user) eqn:Enot; cbn [orb].
    + apply not_user_spec in Enot. split; [intros _ | reflexivity].
      destruct Enot; auto.
    + destruct (Server.value_eqb _ password) eqn:Eeq; cbn [negb].
      * apply value_eqb_eq in Eeq. split; [discriminate|].
        intros [H | [H | H]]; try contradiction.
        -- apply (fun x => proj2 (not_user_spec user) (or_introl x)) in H. congruence.
        -- apply (fun x => proj2 (not_user_spec user) (or_intror x)) in H. congruence.
      * apply value_eqb_neq in Eeq. split; [intros _; auto | reflexivity].
  - intros u Hu Hne Hstored. rewrite Hu. cbn [default from_option id].
    unfold Server.not_user. rewrite bool_decide_eq_false_2 by exact Hne.
    rewrite Hstored, (proj2 (value_eqb_eq password password) eq_refl).
    reflexivity.
Qed.

Lemma login_outcome_witness :
  fst (Server.login (credentials VNone (VStr " 9823533097 ") (VStr "demo123"))
         (Server.startup {| Server.users_file := Server.Missing;
                            Server.finance_file := Server.Missing |}))
  = Ok (Server.Jsonify
          (Server.JObject
             [("success", Server.JBool true);
              ("user",
               Server.JObject
                 [("phone", Server.JValue (VStr "9823533097"));
                  ("name", Server.JValue (VStr "Demo User"))]);
              ("finance", Server.JDict starter_record)])
          200)
  /\ fst (Server.login (credentials VNone (VStr "9823533097") (VStr "Demo123"))
            (Server.startup {| Server.users_file := Server.Missing;
                               Server.finance_file := Server.Missing |}))
     = Ok (Server.Text "Invalid credentials" 401).
Proof.
  pose (d := Server.startup {| Server.users_file := Server.Missing;
                               Server.finance_file := Server.Missing |}).
  pose (good := <["name" := VNone]> (<["phone" := VStr " 9823533097 "]>
                  (<["password" := VStr "demo123"]> (∅ : gmap string value)))).
  pose (bad := <["name" := VNone]> (<["phone" := VStr "9823533097"]>
                 (<["password" := VStr "Demo123"]> (∅ : gmap string value)))).
  assert (Hgp : good !! "phone" = Some (VStr " 9823533097 ")) by reflexivity.
  assert (Hgw : good !! "password" = Some (VStr "demo123")) by reflexivity.
  assert (Hbp : bad !! "phone" = Some (VStr "9823533097")) by reflexivity.
  assert (Hbw : bad !! "password" = Some (VStr "Demo123")) by reflexivity.
  assert (Hs1 : PyStr.strip " 9823533097 " <> "") by discriminate.
  assert (Hs2 : PyStr.strip "9823533097" <> "") by discriminate.
  split.
  - destruct (login_outcome good " 9823533097 " (VStr "demo123") d eq_refl
                Hgp Hgw Hs1 eq_refl)
      as (_ & Hok & _).
    pose (u := <["name" := VStr "Demo User"]>
                 (<["password" := VStr "demo123"]> (∅ : gmap string value))).
    assert (Hu : users_of d !! PyStr.strip " 9823533097 " = Some u) by reflexivity.
    assert (Hne : u <> ∅).
    { intros H. apply (f_equal (fun m => m !! "name")) in H. discriminate H. }
    assert (Hstored : dict_get u "password" = VStr "demo123") by reflexivity.
    etransitivity; [exact (Hok u Hu Hne Hstored) | reflexivity].
  - destruct (login_outcome bad "9823533097" (VStr "Demo123") d eq_refl
                Hbp Hbw Hs2 eq_refl)
      as (Hiff & _ & _).
    apply Hiff. right. right. discriminate.
Defined.

(** X7. For an ASCII phone, [login] answers 400 exactly when the phone is
    blank once stripped
    or the password is falsy, and always for a body that is not JSON;
    nothing is read from disk in that case. *)
Theorem login_missing_fields (ldata : gmap string value) (phone : string)
    (d : Server.Disk) :
  is_ascii phone = true ->
  py_or (dict_get ldata "phone") (VStr "") = VStr phone ->
  (fst (Server.login (Some ldata) d) = Ok (Server.Text "Missing phone or password" 400)
   <-> PyStr.strip phone = "" \/ truthy (dict_get ldata "password") = false)
  /\ Server.login None d = (Ok (Server.Text "Missing phone or password" 400), d).
Proof.
  intros _ Hp. rewrite (login_spec ldata phone d Hp). cbn [fst].
  split; [|reflexivity].
  rewrite <- falsy_text.
  destruct (truthy (VStr (PyStr.strip phone))),
           (truthy (dict_get ldata "password")); cbn [negb orb]; cbv zeta;
    try (split; [intros _; auto | reflexivity]).
  split; [|intros [?|?]; discriminate].
  destruct (_ || _); discriminate.
Qed.

Lemma login_missing_fields_witness :
  fst (Server.login (Some (<["phone" := VStr "   "]> (<["password" := VStr "pw"]> ∅)))
         {| Server.users_file := Server.Unreadable;
            Server.finance_file := Server.Unreadable |})
  = Ok (Server.Text "Missing phone or password" 400).
Proof.
  assert (Hp : py_or (dict_get (<["phone" := VStr "   "]>
                                  (<["password" := VStr "pw"]> ∅)) "phone") (VStr "")
               = VStr "   ") by reflexivity.
  apply (proj1 (login_missing_fields _ "   "
                  {| Server.users_file := Server.Unreadable;
                     Server.finance_file := Server.Unreadable |} eq_refl Hp)).
  left. reflexivity.
Defined.

(* ===================================================================== *)
(** ** Reading and updating finance records *)
(* ===================================================================== *)

(** The loop of [update_finance] overlays the updates on the entry. *)
Lemma merge_updates_union (updates entry : gmap string value) :
  Server.merge_updates updates entry = updates ∪ entry.
Proof.
  unfold Server.merge_updates.
  apply (map_fold_weak_ind (fun r m => r = m ∪ entry)).
  - symmetry. apply (left_id_L ∅ (∪)).
  - intros k v m r _ ->. apply insert_union_l.
Qed.

Lemma merge_updates_lookup (updates entry : gmap string value) (k : string) :
  Server.merge_updates updates entry !! k
  = match updates !! k with
    | Some v => Some v
    | None => entry !! k
    end.
Proof.
  rewrite merge_updates_union, lookup_union.
  destruct (updates !! k), (entry !! k); reflexivity.
Qed.

Lemma update_finance_spec (phone : string) (updates : gmap string value)
    (d : Server.Disk) :
  updates <> ∅ ->
  Server.update_finance phone (Some updates) d
  = (Ok (Server.Jsonify
           (Server.JObject
              [("success", Server.JBool true);
               ("finance",
                Server.JDict
                  (Server.merge_updates updates
                     (default ∅ (finances_of d !! PyStr.strip phone))))])
           200),
     {| Server.users_file := Server.users_file d;
        Server.finance_file :=
          Server.Document
            (<[PyStr.strip phone :=
                 Server.merge_updates updates
                   (default ∅ (finances_of d !! PyStr.strip phone))]>
               (finances_of d)) |}).
Proof.
  intros Hne. run_server. rewrite bool_decide_eq_false_2 by exact Hne.
  cbn [Server.read Server.write Server.users_file Server.finance_file].
  reflexivity.
Qed.

Lemma get_mcp_spec (phone : string) (d : Server.Disk) :
  Server.get_mcp phone d
  = (Ok (Server.Jsonify
           (Server.JDict (default ∅ (finances_of d !! PyStr.strip phone))) 200),
     d).
Proof.
  run_server. cbn [Server.read]. fold (finances_of d).
  destruct (finances_of d !! PyStr.strip phone); reflexivity.
Qed.

Lemma update_finance_no_data (phone : string) (body : option (gmap string value))
    (d : Server.Disk) :
  default ∅ body = ∅ ->
  Server.update_finance phone body d = (Ok (Server.Text "No data provided" 400), d).
Proof.
  intros He. run_server. rewrite He.
  rewrite bool_decide_eq_true_2 by reflexivity. reflexivity.
Qed.

(** X8. For an ASCII phone, [update_finance] with no body or an empty
    object answers 400 and writes nothing.  With a non-empty object it overlays the updates on the
    phone's record (a key of the updates takes the new value, every other
    key keeps its old one; a phone without record starts from the empty
    record), stores the result under the stripped phone, reports it, and
    leaves the users document alone. *)
Theorem update_finance_outcome (phone : string) (body : option (gmap string value))
    (d : Server.Disk) :
  is_ascii phone = true ->
  (default ∅ body = ∅ ->
   Server.update_finance phone body d = (Ok (Server.Text "No data provided" 400), d))
  /\ (forall updates,
        body = Some updates -> updates <> ∅ ->
        exists entry,
          Server.update_finance phone body d
          = (Ok (Server.Jsonify
                   (Server.JObject
                      [("success", Server.JBool true);
                       ("finance", Server.JDict entry)])
                   200),
             {| Server.users_file := Server.users_file d;
                Server.finance_file :=
                  Server.Document (<[PyStr.strip phone := entry]> (finances_of d)) |})
          /\ forall key,
               entry !! key
               = match updates !! key with
                 | Some v => Some v
                 | None => default ∅ (finances_of d !! PyStr.strip phone) !! key
                 end).
Proof.
  intros _. split.
  - apply update_finance_no_data.
  - intros updates -> Hne. eexists. split.
    + apply update_finance_spec, Hne.
    + intros key. apply merge_updates_lookup.
Qed.

Lemma update_finance_outcome_witness :
  exists entry,
    fst (Server.update_finance " 9823533097" (Some (<["loan" := VInt 0]> ∅))
           (Server.startup {| Server.users_file := Server.Missing;
                              Server.finance_file := Server.Missing |}))
    = Ok (Server.Jsonify
            (Server.JObject
               [("success", Server.JBool true); ("finance", Server.JDict entry)])
            200)
    /\ entry !! "loan" = Some (VInt 0)
    /\ entry !! "stocks" = Some (VInt 400000).
Proof.
  pose (updates := <["loan" := VInt 0]> (∅ : gmap string value)).
  assert (Hne : updates <> ∅).
  { intros H. apply (f_equal (fun m => m !! "loan")) in H. discriminate H. }
  destruct (proj2 (update_finance_outcome " 9823533097" (Some updates)
                     (Server.startup {| Server.users_file := Server.Missing;
                                        Server.finance_file := Server.Missing |})
                     eq_refl)
              updates eq_refl Hne) as (entry & Heq & Hlookup).
  exists entry. split; [|split].
  - exact (f_equal fst Heq).
  - exact (Hlookup "loan").
  - exact (Hlookup "stocks").
Defined.

(** X9. For ASCII phones, what [update_finance] reports is what [get_mcp]
    then returns for any spelling of the phone that strips to the same key; for every other
    phone [get_mcp] returns what it returned before the update. *)
Theorem update_then_get_mcp (phone : string) (updates : gmap string value)
    (d : Server.Disk) :
  is_ascii phone = true ->
  updates <> ∅ ->
  let d' := snd (Server.update_finance phone (Some updates) d) in
  exists entry,
    fst (Server.update_finance phone (Some updates) d)
    = Ok (Server.Jsonify
            (Server.JObject
               [("success", Server.JBool true); ("finance", Server.JDict entry)])
            200)
    /\ (forall phone',
          is_ascii phone' = true ->
          PyStr.strip phone' = PyStr.strip phone ->
          Server.get_mcp phone' d' = (Ok (Server.Jsonify (Server.JDict entry) 200), d'))
    /\ (forall other,
          is_ascii other = true ->
          PyStr.strip other <> PyStr.strip phone ->
          fst (Server.get_mcp other d') = fst (Server.get_mcp other d)).
Proof.
  intros _ Hne d'. subst d'. rewrite (update_finance_spec _ _ _ Hne). cbn [fst snd].
  eexists. split; [reflexivity|]. split.
  - intros phone' _ Hs. rewrite get_mcp_spec, finances_of_disk, Hs, lookup_insert_eq.
    reflexivity.
  - intros other _ Hs. rewrite !get_mcp_spec, finances_of_disk. cbn [fst].
    rewrite lookup_insert_ne by congruence. reflexivity.
Qed.

Lemma update_then_get_mcp_witness :
  exists entry,
    fst (Server.update_finance "700100 " (Some (<["stocks" := VInt 12]> ∅))
           {| Server.users_file := Server.Missing;
              Server.finance_file := Server.Unreadable |})
    = Ok (Server.Jsonify
            (Server.JObject
               [("success", Server.JBool true); ("finance", Server.JDict entry)])
            200)
    /\ fst (Server.get_mcp " 700100"
              (snd (Server.update_finance "700100 " (Some (<["stocks" := VInt 12]> ∅))
                      {| Server.users_file := Server.Missing;
                         Server.finance_file := Server.Unreadable |})))
       = Ok (Server.Jsonify (Server.JDict entry) 200).
Proof.
  pose (updates := <["stocks" := VInt 12]> (∅ : gmap string value)).
  assert (Hne : updates <> ∅).
  { intros H. apply (f_equal (fun m => m !! "stocks")) in H. discriminate H. }
  destruct (update_then_get_mcp "700100 " updates
              {| Server.users_file := Server.Missing;
                 Server.finance_file := Server.Unreadable |} eq_refl Hne)
    as (entry & Hup & Hsame & _).
  exists entry. split; [exact Hup|].
  exact (f_equal fst (Hsame " 700100" eq_refl eq_refl)).
Defined.

(** X10. For an ASCII phone and a finance document that [json.load]
    accepts, [get_mcp] writes nothing and returns, with status 200, exactly
    the record that [query] answers from for the same phone, which is the
    empty object for a phone without record and for a finance file that is
    missing or unreadable. *)
Theorem get_mcp_is_query_record (phone : string) (d : Server.Disk) (t : datetime) :
  is_ascii phone = true ->
  json_accepts (finances_of d) = true ->
  Server.get_mcp phone d
  = (Ok (Server.Jsonify (Server.JDict (get_financial_record phone (world_of d t))) 200),
     d)
  /\ (finances_of d !! PyStr.strip phone = None ->
      Server.get_mcp phone d = (Ok (Server.Jsonify (Server.JDict ∅) 200), d))
  /\ (Server.finance_file d = Server.Missing
      \/ Server.finance_file d = Server.Unreadable ->
      Server.get_mcp phone d = (Ok (Server.Jsonify (Server.JDict ∅) 200), d)).
Proof.
  intros _ Ha. rewrite get_mcp_spec, (get_financial_record_disk _ _ _ Ha).
  split; [reflexivity|].
  split; [intros ->; reflexivity|].
  unfold finances_of. intros [-> | ->]; reflexivity.
Qed.

Lemma get_mcp_is_query_record_witness :
  is_ascii " 9823533097 " = true
  /\ Server.get_mcp " 9823533097 "
       (Server.startup {| Server.users_file := Server.Missing;
                          Server.finance_file := Server.Missing |})
     = (Ok (Server.Jsonify
              (Server.JDict
                 (get_financial_record " 9823533097 "
                    (world_of (Server.startup
                                 {| Server.users_file := Server.Missing;
                                    Server.finance_file := Server.Missing |}) noon)))
              200),
        Server.startup {| Server.users_file := Server.Missing;
                          Server.finance_file := Server.Missing |}).
Proof.
  split; [reflexivity|].
  exact (proj1 (get_mcp_is_query_record " 9823533097 "
                  (Server.startup {| Server.users_file := Server.Missing;
                                     Server.finance_file := Server.Missing |})
                  noon eq_refl eq_refl)).
Defined.

(** X11. Two updates of one phone amount to one update by the second
    overlaid on the first: the disk is the same, and so is the record
    reported; in particular sending the same update twice changes nothing
    the second time. *)
Theorem update_finance_composes (phone : string) (first second : gmap string value)
    (d : Server.Disk) :
  first <> ∅ -> second <> ∅ ->
  Server.update_finance phone (Some second)
    (snd (Server.update_finance phone (Some first) d))
  = Server.update_finance phone (Some (second ∪ first)) d
  /\ Server.update_finance phone (Some first)
       (snd (Server.update_finance phone (Some first) d))
     = Server.update_finance phone (Some first) d.
Proof.
  intros H1 H2.
  assert (Hcompose : forall u1 u2 : gmap string value,
             u1 <> ∅ -> u2 <> ∅ ->
             Server.update_finance phone (Some u2)
               (snd (Server.update_finance phone (Some u1) d))
             = Server.update_finance phone (Some (u2 ∪ u1)) d).
  { intros u1 u2 Hu1 Hu2.
    assert (Hu : u2 ∪ u1 <> ∅).
    { intros H. apply map_positive_l in H. contradiction. }
    rewrite (update_finance_spec phone u1 d Hu1). cbn [snd].
    rewrite (update_finance_spec phone u2 _ Hu2), (update_finance_spec phone _ d Hu).
    rewrite finances_of_disk. cbn [Server.users_file].
    rewrite lookup_insert_eq, insert_insert_eq. cbn [default from_option id].
    rewrite !merge_updates_union, (assoc_L (∪)). reflexivity. }
  split.
  - apply Hcompose; assumption.
  - rewrite (Hcompose first first H1 H1), (idemp_L (∪)). reflexivity.
Qed.

Lemma update_finance_composes_witness :
  Server.update_finance "700100" (Some (<["loan" := VInt 5]> ∅))
    (snd (Server.update_finance "700100" (Some (<["loan" := VInt 9]> ∅))
            {| Server.users_file := Server.Missing;
               Server.finance_file := Server.Missing |}))
  = Server.update_finance "700100"
      (Some (<["loan" := VInt 5]> ∅ ∪ <["loan" := VInt 9]> ∅))
      {| Server.users_file := Server.Missing; Server.finance_file := Server.Missing |}.
Proof.
  assert (H1 : <["loan" := VInt 9]> (∅ : gmap string value) <> ∅).
  { intros H. apply (f_equal (fun m => m !! "loan")) in H. discriminate H. }
  assert (H2 : <["loan" := VInt 5]> (∅ : gmap string value) <> ∅).
  { intros H. apply (f_equal (fun m => m !! "loan")) in H. discriminate H. }
  exact (proj1 (update_finance_composes "700100" _ _
                  {| Server.users_file := Server.Missing;
                     Server.finance_file := Server.Missing |} H1 H2)).
Defined.

(** What [query] reads after an update. *)
Lemma get_financial_record_updated (phone phone' : string)
    (updates : gmap string value) (d : Server.Disk) (t : datetime) :
  json_accepts (finances_of d) = true -> loadable updates -> updates <> ∅ ->
  PyStr.strip phone' = PyStr.strip phone ->
  get_financial_record phone'
    (world_of (snd (Server.update_finance phone (Some updates) d)) t)
  = Server.merge_updates updates (default ∅ (finances_of d !! PyStr.strip phone)).
Proof.
  intros Ha Hu Hne Hs. rewrite (update_finance_spec _ _ _ Hne). cbn [snd].
  rewrite get_financial_record_disk.
  - rewrite finances_of_disk, Hs, lookup_insert_eq. reflexivity.
  - rewrite finances_of_disk. apply json_accepts_insert; [exact Ha|].
    rewrite merge_updates_union.
    apply loadable_union; [exact Hu | apply json_accepts_lookup, Ha].
Qed.

(** X12. For ASCII text, a finance document that [json.load] accepts and
    an update without an integer of more than 4300 digits: after
    [update_finance] has set the field of a single-field rule to an
    integer, [query] about that topic reports that integer, for any
    spelling of the phone that strips to the same key. *)
Theorem update_then_query (phone phone' message : string)
    (updates : gmap string value) (topic : Rules.topic) (v : Z)
    (d : Server.Disk) (t : datetime) :
  is_ascii phone = true -> is_ascii phone' = true -> is_ascii message = true ->
  json_accepts (finances_of d) = true -> loadable updates ->
  updates !! Rules.field_name topic = Some (VInt v) ->
  topic <> Rules.NetWorth ->
  PyStr.strip phone' = PyStr.strip phone ->
  Rules.classify (PyStr.lower message) = Some topic ->
  query (request phone' message)
    (world_of (snd (Server.update_finance phone (Some updates) d)) t)
  = Ok (Rules.available topic v).
Proof.
  intros _ _ _ Ha Hu Hup Htopic Hs Hc.
  assert (Hne : updates <> ∅).
  { intros ->. rewrite lookup_empty in Hup. discriminate. }
  apply (query_field_int _ _ _ topic v Hc Htopic).
  rewrite (get_financial_record_updated _ _ _ _ _ Ha Hu Hne Hs).
  rewrite merge_updates_lookup, Hup. reflexivity.
Qed.

Lemma update_then_query_witness :
  is_ascii " 9823533097 " = true
  /\ is_ascii "What is my CIBIL score?" = true
  /\ query (request " 9823533097 " "What is my CIBIL score?")
       (world_of
          (snd (Server.update_finance "9823533097"
                  (Some (<["credit_score" := VInt 790]> ∅))
                  (Server.startup {| Server.users_file := Server.Missing;
                                     Server.finance_file := Server.Missing |})))
          noon)
     = Ok "Your credit score is 790.".
Proof.
  assert (Hup : <["credit_score" := VInt 790]> (∅ : gmap string value)
                !! Rules.field_name Rules.CreditScore = Some (VInt 790))
    by reflexivity.
  assert (Hu : loadable (<["credit_score" := VInt 790]> ∅))
    by (apply loadable_insert; [reflexivity | apply loadable_empty]).
  assert (Ht : Rules.CreditScore <> Rules.NetWorth) by discriminate.
  split; [reflexivity|]. split; [reflexivity|].
  exact (update_then_query "9823533097" " 9823533097 " "What is my CIBIL score?"
           _ Rules.CreditScore 790
           (Server.startup {| Server.users_file := Server.Missing;
                              Server.finance_file := Server.Missing |})
           noon eq_refl eq_refl eq_refl eq_refl Hu Hup Ht eq_refl eq_refl).
Defined.

(* ===================================================================== *)
(** ** Values that are not integers *)
(* ===================================================================== *)

(** A money rule whose field holds text raises; the credit-score rule
    prints the text. *)
Lemma query_field_text (phone message : string) (w : World) (topic : Rules.topic)
    (s : string) :
  Rules.classify (PyStr.lower message) = Some topic -> topic <> Rules.NetWorth ->
  get_financial_record phone w !! Rules.field_name topic = Some (VStr s) ->
  query (request phone message) w
  = match topic with
    | Rules.CreditScore => Ok ("Your credit score is " ++ s ++ ".")
    | _ => Raise ValueError
    end.
Proof.
  intros Hc Ht Hf. pose proof (classify_nonempty _ _ Hc) as Hne. run_query.
  destruct (PyStr.lower message) as [|c m] eqn:Em.
  { apply (proj1 (lower_empty message)) in Em. contradiction. }
  cbn [truthy negb String.eqb]. rewrite <- Em in *. clear Em.
  split_classify Hc; injection Hc as <-; try congruence;
    cbn [Rules.field_name] in Hf; unfold dict_get; rewrite Hf; reflexivity.
Qed.

(** X13. [update_finance] stores what it is sent without looking at it.
    For ASCII text, a finance document that [json.load] accepts and an
    update without an integer of more than 4300 digits: once it has put a
    text under the field of a money rule (bank balance, mutual funds,
    stocks, loan), [query] about that topic raises ValueError instead of
    replying; under [credit_score] the text is printed as it is. *)
Theorem update_with_text_breaks_query (phone phone' message : string)
    (updates : gmap string value) (topic : Rules.topic) (s : string)
    (d : Server.Disk) (t : datetime) :
  is_ascii phone = true -> is_ascii phone' = true -> is_ascii message = true ->
  json_accepts (finances_of d) = true -> loadable updates ->
  updates !! Rules.field_name topic = Some (VStr s) ->
  topic <> Rules.NetWorth ->
  PyStr.strip phone' = PyStr.strip phone ->
  Rules.classify (PyStr.lower message) = Some topic ->
  query (request phone' message)
    (world_of (snd (Server.update_finance phone (Some updates) d)) t)
  = match topic with
    | Rules.CreditScore => Ok ("Your credit score is " ++ s ++ ".")
    | _ => Raise ValueError
    end.
Proof.
  intros _ _ _ Ha Hu Hup Htopic Hs Hc.
  assert (Hne : updates <> ∅).
  { intros ->. rewrite lookup_empty in Hup. discriminate. }
  apply (query_field_text _ _ _ topic s Hc Htopic).
  rewrite (get_financial_record_updated _ _ _ _ _ Ha Hu Hne Hs).
  rewrite merge_updates_lookup, Hup. reflexivity.
Qed.

Lemma update_with_text_breaks_query_witness :
  is_ascii starter_phone = true
  /\ is_ascii "What is my bank balance?" = true
  /\ query (request starter_phone "What is my bank balance?")
       (world_of
          (snd (Server.update_finance starter_phone
                  (Some (<["bank_balance" := VStr "850000"]> ∅))
                  (Server.startup {| Server.users_file := Server.Missing;
                                     Server.finance_file := Server.Missing |})))
          noon)
     = Raise ValueError.
Proof.
  assert (Hup : <["bank_balance" := VStr "850000"]> (∅ : gmap string value)
                !! Rules.field_name Rules.BankBalance = Some (VStr "850000"))
    by reflexivity.
  assert (Hu : loadable (<["bank_balance" := VStr "850000"]> ∅))
    by (apply loadable_insert; [reflexivity | apply loadable_empty]).
  assert (Ht : Rules.BankBalance <> Rules.NetWorth) by discriminate.
  split; [reflexivity|]. split; [reflexivity|].
  exact (update_with_text_breaks_query starter_phone starter_phone
           "What is my bank balance?" _ Rules.BankBalance "850000"
           (Server.startup {| Server.users_file := Server.Missing;
                              Server.finance_file := Server.Missing |})
           noon eq_refl eq_refl eq_refl eq_refl Hu Hup Ht eq_refl eq_refl).
Defined.

Lemma lookup_int_or_absent (d : gmap string value) (key : string) :
  int_record d ->
  d !! key = None \/ exists z, d !! key = Some (VInt z).
Proof.
  intros Hd. destruct (d !! key) as [v|] eqn:E; [right | left; reflexivity].
  destruct (Hd _ _ E) as [z ->]. eauto.
Qed.

(** X14. A field that is present but null is not the same as an absent
    one.  For ASCII text, in a record of integers where one of bank_balance, mutual_funds,
    stocks, loan is null, the field's own rule answers "unavailable" as for
    an absent field, but the net-worth rule raises TypeError: its default
    of 0 applies to absent keys only. *)
Theorem null_field_breaks_net_worth (phone message : string) (w : World)
    (ints : gmap string value) (topic : Rules.topic) :
  is_ascii phone = true -> is_ascii message = true ->
  int_record ints ->
  topic <> Rules.CreditScore -> topic <> Rules.NetWorth ->
  get_financial_record phone w = <[Rules.field_name topic := VNone]> ints ->
  (Rules.classify (PyStr.lower message) = Some topic ->
   query (request phone message) w = Ok (Rules.unavailable topic))
  /\ (Rules.classify (PyStr.lower message) = Some Rules.NetWorth ->
      query (request phone message) w = Raise TypeError).
Proof.
  intros _ _ Hints Hcs Hnw Hrec. split; intros Hc;
    pose proof (classify_nonempty _ _ Hc) as Hne; run_query; rewrite Hrec;
    (destruct (PyStr.lower message) as [|c m] eqn:Em;
     [apply (proj1 (lower_empty message)) in Em; contradiction|]);
    cbn [truthy negb String.eqb]; rewrite <- Em in *; clear Em.
  - split_classify Hc; injection Hc as <-; try congruence;
      cbn [Rules.field_name]; unfold dict_get; rewrite lookup_insert_eq;
      reflexivity.
  - split_classify Hc. clear Hc. unfold dict_get_default.
    destruct (lookup_int_or_absent ints "bank_balance" Hints) as [Hb | [b Hb]];
    destruct (lookup_int_or_absent ints "mutual_funds" Hints) as [Hm | [mf Hm]];
    destruct (lookup_int_or_absent ints "stocks" Hints) as [Hs | [st Hs]];
    destruct (lookup_int_or_absent ints "loan" Hints) as [Hl | [ln Hl]];
    destruct topic; try congruence; cbn [Rules.field_name];
      rewrite ?lookup_insert_eq, ?lookup_insert_ne by discriminate;
      rewrite ?Hb, ?Hm, ?Hs, ?Hl; reflexivity.
Qed.

Lemma null_field_breaks_net_worth_witness :
  is_ascii starter_phone = true
  /\ is_ascii "my net worth" = true
  /\ get_financial_record starter_phone
       (world_with (<["loan" := VNone]> starter_record) noon)
     = <["loan" := VNone]> starter_record
  /\ query (request starter_phone "my net worth")
       (world_with (<["loan" := VNone]> starter_record) noon)
     = Raise TypeError.
Proof.
  assert (Hcs : Rules.Loan <> Rules.CreditScore) by discriminate.
  assert (Hnw : Rules.Loan <> Rules.NetWorth) by discriminate.
  assert (Hrec : get_financial_record starter_phone
                   (world_with (<["loan" := VNone]> starter_record) noon)
                 = <[Rules.field_name Rules.Loan := VNone]> starter_record)
    by reflexivity.
  split; [reflexivity|]. split; [reflexivity|]. split; [exact Hrec|].
  exact (proj2 (null_field_breaks_net_worth starter_phone "my net worth"
                  (world_with (<["loan" := VNone]> starter_record) noon)
                  starter_record Rules.Loan eq_refl eq_refl
                  starter_record_int Hcs Hnw Hrec)
           eq_refl).
Defined.

(* ===================================================================== *)
(** ** Start-up *)
(* ===================================================================== *)

(** X15. Start-up is non-destructive and idempotent: it writes a starter
    document only where no file exists, keeps whatever is there otherwise
    (an unreadable file stays unreadable), leaves no file missing, and
    running it again changes nothing. *)
Theorem startup_non_destructive (d : Server.Disk) :
  Server.startup (Server.startup d) = Server.startup d
  /\ (forall p, Server.read p d <> Server.Missing ->
                Server.read p (Server.startup d) = Server.read p d)
  /\ (forall p, Server.read p (Server.startup d) <> Server.Missing)
  /\ (Server.users_file d = Server.Missing ->
      Server.users_file (Server.startup d) = Server.Document Server.starter_users)
  /\ (Server.finance_file d = Server.Missing ->
      Server.finance_file (Server.startup d) = Server.Document starter_finance).
Proof.
  destruct d as [u f]. unfold Server.startup.
  split; [|split; [|split; [|split]]].
  - destruct u, f; reflexivity.
  - intros [] Hp; cbn in Hp; destruct u, f; cbn; congruence.
  - intros []; destruct u, f; cbn; discriminate.
  - cbn. intros ->. destruct f; reflexivity.
  - cbn. intros ->. destruct u; reflexivity.
Qed.

(* ===================================================================== *)
(** ** What [query] ignores in its inputs *)
(* ===================================================================== *)

Lemma lower_char_idempotent (c : ascii) :
  PyStr.lower_char (PyStr.lower_char c) = PyStr.lower_char c.
Proof. destruct c as [[] [] [] [] [] [] [] []]; reflexivity. Qed.

Lemma lower_idempotent (s : string) : PyStr.lower (PyStr.lower s) = PyStr.lower s.
Proof.
  induction s as [|c s IH]; simpl; [reflexivity|].
  rewrite lower_char_idempotent, IH. reflexivity.
Qed.

Lemma lstrip_starts_clean (s : string) : starts_clean (PyStr.lstrip s).
Proof.
  induction s as [|c s IH]; simpl; [exact I|].
  destruct (PyStr.isspace c) eqn:E; [exact IH | exact E].
Qed.

Lemma lstrip_clean (s : string) : starts_clean s -> PyStr.lstrip s = s.
Proof. destruct s as [|c s]; simpl; [reflexivity|]. intros ->. reflexivity. Qed.

Lemma rstrip_starts_clean (s : string) : starts_clean s -> starts_clean (PyStr.rstrip s).
Proof.
  destruct s as [|c s]; simpl; [intros _; exact I|]. intros Hc.
  destruct (PyStr.rstrip s); [rewrite Hc|]; exact Hc.
Qed.

Lemma rstrip_idempotent (s : string) : PyStr.rstrip (PyStr.rstrip s) = PyStr.rstrip s.
Proof.
  induction s as [|c s IH]; simpl; [reflexivity|].
  destruct (PyStr.rstrip s) as [|a r] eqn:Er.
  - destruct (PyStr.isspace c) eqn:Ec; simpl; [reflexivity|].
    rewrite Ec. reflexivity.
  - simpl. simpl in IH. destruct (PyStr.rstrip r) as [|b r'] eqn:Er'.
    + destruct (PyStr.isspace a); [discriminate IH|].
      injection IH as <-. reflexivity.
    + rewrite IH. reflexivity.
Qed.

Lemma strip_idempotent (s : string) : PyStr.strip (PyStr.strip s) = PyStr.strip s.
Proof.
  unfold PyStr.strip.
  rewrite (lstrip_clean (PyStr.rstrip (PyStr.lstrip s)))
    by apply rstrip_starts_clean, lstrip_starts_clean.
  apply rstrip_idempotent.
Qed.

(** The result of [query] depends on the phone through its stripped form
    and on the message through its lower-cased form. *)
Lemma query_congruence (phone phone' message message' : string) (w : World) :
  PyStr.strip phone' = PyStr.strip phone ->
  PyStr.lower message' = PyStr.lower message ->
  query (request phone' message') w = query (request phone message) w.
Proof.
  intros Hs Hl. run_query. unfold get_financial_record. rewrite Hs, Hl. reflexivity.
Qed.

(** X16. [query] does not tell apart two spellings of the phone that differ
    in surrounding whitespace, nor two spellings of the message that differ
    in letter case: the answer, the fallback echo included, is the same.
    In particular the stripped phone and the lower-cased message give the
    answer of the originals. *)
Theorem query_ignores_case_and_padding (phone phone' message message' : string)
    (w : World) :
  PyStr.strip phone' = PyStr.strip phone ->
  PyStr.lower message' = PyStr.lower message ->
  query (request phone' message') w = query (request phone message) w
  /\ query (request (PyStr.strip phone) (PyStr.lower message)) w
     = query (request phone message) w.
Proof.
  intros Hs Hl. split.
  - apply query_congruence; assumption.
  - apply query_congruence; [apply strip_idempotent | apply lower_idempotent].
Qed.

Lemma query_ignores_case_and_padding_witness :
  query (request "  9823533097" "MY SHARES?") (starter_world noon)
  = query (request "9823533097 " "my Shares?") (starter_world noon).
Proof.
  exact (proj1 (query_ignores_case_and_padding "9823533097 " "  9823533097"
                  "my Shares?" "MY SHARES?" (starter_world noon) eq_refl eq_refl)).
Defined.

(* ===================================================================== *)
(** ** No authentication on the finance endpoints *)
(* ===================================================================== *)

(** X18. [update_finance] and [get_mcp] never look at the users document:
    whatever it holds (nothing, garbage, any users), their answers are the
    same, and [update_finance] hands it back untouched.  A phone needs no
    registration and no login to have its record read or overwritten. *)
Theorem finance_endpoints_ignore_users (phone : string)
    (body : option (gmap string value)) (users1 users2 finance : Server.file) :
  let d1 := {| Server.users_file := users1; Server.finance_file := finance |} in
  let d2 := {| Server.users_file := users2; Server.finance_file := finance |} in
  fst (Server.update_finance phone body d1) = fst (Server.update_finance phone body d2)
  /\ fst (Server.get_mcp phone d1) = fst (Server.get_mcp phone d2)
  /\ Server.users_file (snd (Server.update_finance phone body d1)) = users1
  /\ Server.finance_file (snd (Server.update_finance phone body d1))
     = Server.finance_file (snd (Server.update_finance phone body d2)).
Proof.
  intros d1 d2. subst d1 d2. rewrite !get_mcp_spec, !finances_of_disk.
  destruct (decide (default ∅ body = ∅)) as [He | Hne].
  - rewrite !(update_finance_no_data phone body _ He). cbn [fst snd].
    repeat split; reflexivity.
  - destruct body as [updates|]; [|contradiction Hne; reflexivity].
    cbn [default from_option id] in Hne.
    rewrite !(update_finance_spec _ _ _ Hne), !finances_of_disk. cbn [fst snd].
    repeat split; reflexivity.
Qed.

(* ===================================================================== *)
(** ** Negative amounts *)
(* ===================================================================== *)

Lemma format_comma_negative (v : Z) :
  (v < 0)%Z -> PyInt.format_comma v = "-" ++ PyInt.format_comma (- v).
Proof.
  intros Hv. unfold PyInt.format_comma.
  rewrite (proj2 (Z.ltb_lt v 0) Hv).
  rewrite (proj2 (Z.ltb_ge (- v) 0)) by lia.
  rewrite Zabs2N.inj_opp. reflexivity.
Qed.

(** X19. Nothing keeps a stored amount from being negative, and a money
    rule that answers an ASCII message then writes the minus sign between the rupee sign and the grouped
    magnitude, as in ₹-1,234. *)
Theorem negative_amount_sign (phone message : string) (w : World)
    (topic : Rules.topic) (v : Z) :
  is_ascii phone = true -> is_ascii message = true ->
  Rules.classify (PyStr.lower message) = Some topic ->
  topic <> Rules.CreditScore -> topic <> Rules.NetWorth ->
  get_financial_record phone w !! Rules.field_name topic = Some (VInt v) ->
  (v < 0)%Z ->
  query (request phone message) w
  = Ok (Rules.money_lead topic ++ "₹-" ++ PyInt.format_comma (- v) ++ ".")
  /\ grouped_amount (PyInt.format_comma (- v)) = true.
Proof.
  intros _ _ Hc Hcs Hnw Hf Hv. split; [|apply format_comma_grouped].
  rewrite (query_field_int _ _ _ topic v Hc Hnw Hf).
  destruct topic; try congruence; cbn [Rules.available Rules.money_lead];
    unfold Rules.rupees; rewrite (format_comma_negative v Hv);
    try (rewrite (proj2 (Z.eqb_neq v 0)) by lia); reflexivity.
Qed.

Lemma negative_amount_sign_witness :
  query (request starter_phone "savings?")
    (world_with (<["bank_balance" := VInt (-1234)]> ∅) noon)
  = Ok "Your bank balance is ₹-1,234.".
Proof.
  assert (Hcs : Rules.BankBalance <> Rules.CreditScore) by discriminate.
  assert (Hnw : Rules.BankBalance <> Rules.NetWorth) by discriminate.
  assert (Hf : get_financial_record starter_phone
                 (world_with (<["bank_balance" := VInt (-1234)]> ∅) noon)
               !! Rules.field_name Rules.BankBalance = Some (VInt (-1234)))
    by reflexivity.
  assert (Hv : (-1234 < 0)%Z) by lia.
  exact (proj1 (negative_amount_sign starter_phone "savings?"
                  (world_with (<["bank_balance" := VInt (-1234)]> ∅) noon)
                  Rules.BankBalance (-1234) eq_refl eq_refl eq_refl Hcs Hnw Hf Hv)).
Defined.

(* ===================================================================== *)
(** ** Blank fields *)
(* ===================================================================== *)

Lemma lstrip_whitespace (s : string) :
  all_chars PyStr.isspace (PyStr.lstrip s) = all_chars PyStr.isspace s.
Proof.
  induction s as [|c s IH]; simpl; [reflexivity|].
  destruct (PyStr.isspace c) eqn:E; simpl; [exact IH | rewrite E; reflexivity].
Qed.

Lemma rstrip_empty (s : string) :
  PyStr.rstrip s = "" <-> all_chars PyStr.isspace s = true.
Proof.
  induction s as [|c s IH]; simpl; [split; reflexivity|].
  destruct (PyStr.rstrip s) as [|a r] eqn:Er.
  - destruct (PyStr.isspace c); simpl.
    + split; [intros _; apply IH; reflexivity | reflexivity].
    + split; discriminate.
  - split; [discriminate|]. intros [_ H]%andb_prop. apply IH in H. discriminate.
Qed.

(** [strip] leaves nothing exactly of whitespace. *)
Lemma strip_empty (s : string) :
  PyStr.strip s = "" <-> all_chars PyStr.isspace s = true.
Proof. unfold PyStr.strip. rewrite rstrip_empty, lstrip_whitespace. reflexivity. Qed.

Lemma register_missing_iff (data : gmap string value) (name phone : string)
    (d : Server.Disk) :
  py_or (dict_get data "name") (VStr "") = VStr name ->
  py_or (dict_get data "phone") (VStr "") = VStr phone ->
  fst (Server.register (Some data) d)
  = Ok (Server.Text "Missing name/phone/password" 400)
  <-> PyStr.strip name = "" \/ PyStr.strip phone = ""
      \/ truthy (dict_get data "password") = false.
Proof.
  intros Hn Hp. rewrite (register_spec data name phone d Hn Hp).
  rewrite <- !falsy_text.
  destruct (truthy (VStr (PyStr.strip name))),
           (truthy (VStr (PyStr.strip phone))),
           (truthy (dict_get data "password")); cbn [negb orb fst];
    try (split; [intros _; auto | reflexivity]).
  split; [|intros [?|[?|?]]; discriminate].
  destruct (bool_decide _); cbn [fst]; discriminate.
Qed.

Lemma login_missing_iff (ldata : gmap string value) (phone : string)
    (d : Server.Disk) :
  py_or (dict_get ldata "phone") (VStr "") = VStr phone ->
  fst (Server.login (Some ldata) d) = Ok (Server.Text "Missing phone or password" 400)
  <-> PyStr.strip phone = "" \/ truthy (dict_get ldata "password") = false.
Proof.
  intros Hp. rewrite (login_spec ldata phone d Hp). cbn [fst].
  rewrite <- falsy_text.
  destruct (truthy (VStr (PyStr.strip phone))),
           (truthy (dict_get ldata "password")); cbn [negb orb]; cbv zeta;
    try (split; [intros _; auto | reflexivity]).
  split; [|intros [?|?]; discriminate].
  destruct (_ || _); discriminate.
Qed.

(** X17. [register] and [login] treat an ASCII name or phone as missing
    exactly when it consists of whitespace only (the empty text included):
    with such a name or phone, or with a falsy password, [register]
    answers 400, and with such a phone or a falsy password so does
    [login]; with neither, neither does. *)
Theorem blank_field_is_missing (data : gmap string value) (name phone : string)
    (d : Server.Disk) :
  is_ascii name = true -> is_ascii phone = true ->
  py_or (dict_get data "name") (VStr "") = VStr name ->
  py_or (dict_get data "phone") (VStr "") = VStr phone ->
  (fst (Server.register (Some data) d)
   = Ok (Server.Text "Missing name/phone/password" 400)
   <-> all_chars PyStr.isspace name = true \/ all_chars PyStr.isspace phone = true
       \/ truthy (dict_get data "password") = false)
  /\ (fst (Server.login (Some data) d)
      = Ok (Server.Text "Missing phone or password" 400)
      <-> all_chars PyStr.isspace phone = true
          \/ truthy (dict_get data "password") = false).
Proof.
  intros _ _ Hn Hp.
  rewrite (register_missing_iff data name phone d Hn Hp).
  rewrite (login_missing_iff data phone d Hp).
  rewrite !strip_empty. split; reflexivity.
Qed.

Lemma blank_field_is_missing_witness :
  is_ascii "Asha" = true
  /\ all_chars PyStr.isspace "Asha" = false
  /\ fst (Server.register
            (credentials (VStr "Asha") (VStr (String "009" " ")) (VStr "s3cret"))
            {| Server.users_file := Server.Missing;
               Server.finance_file := Server.Missing |})
     = Ok (Server.Text "Missing name/phone/password" 400)
  /\ fst (Server.login
            (credentials (VStr "Asha") (VStr (String "009" " ")) (VStr "s3cret"))
            {| Server.users_file := Server.Missing;
               Server.finance_file := Server.Missing |})
     = Ok (Server.Text "Missing phone or password" 400).
Proof.
  pose (data := <["name" := VStr "Asha"]> (<["phone" := VStr (String "009" " ")]>
                  (<["password" := VStr "s3cret"]> (∅ : gmap string value)))).
  destruct (blank_field_is_missing data "Asha" (String "009" " ")
              {| Server.users_file := Server.Missing;
                 Server.finance_file := Server.Missing |}
              eq_refl eq_refl eq_refl eq_refl) as [Hr Hl].
  split; [reflexivity|]. split; [reflexivity|]. split.
  - apply Hr. right. left. reflexivity.
  - apply Hl. left. reflexivity.
Defined.

(* ===================================================================== *)
(** ** Amounts too long to write *)
(* ===================================================================== *)

(** The net-worth rule on a record whose four amounts are integers. *)
Lemma query_net_worth_fields (phone message : string) (w : World) (b m s l : Z) :
  Rules.classify (PyStr.lower message) = Some Rules.NetWorth ->
  get_financial_record phone w !! "bank_balance" = Some (VInt b) ->
  get_financial_record phone w !! "mutual_funds" = Some (VInt m) ->
  get_financial_record phone w !! "stocks" = Some (VInt s) ->
  get_financial_record phone w !! "loan" = Some (VInt l) ->
  PyInt.too_long (b + m + s - l) = true ->
  query (request phone message) w = Raise ValueError.
Proof.
  intros Hc Hb Hm Hs Hl Hlong. pose proof (classify_nonempty _ _ Hc) as Hne. run_query.
  destruct (PyStr.lower message) as [|c msg] eqn:Em.
  { apply (proj1 (lower_empty message)) in Em. contradiction. }
  cbn [truthy negb String.eqb]. rewrite <- Em in *. clear Em.
  split_classify Hc. unfold dict_get_default. rewrite Hb, Hm, Hs, Hl.
  cbn [default from_option id fmt_comma py_add py_sub py_lt_zero py_abs].
  destruct (_ <? 0)%Z; cbn [fmt_comma py_abs]; rewrite ?too_long_abs, Hlong;
    reflexivity.
Qed.

(** X20. The ValueError of the net-worth rule can be reached through the
    handlers.  For ASCII text and a finance document that [json.load]
    accepts: once [update_finance] has stored four integer amounts, none of
    more than 4300 digits, whose net worth has more than 4300 digits,
    [query] raises ValueError for every message the net-worth rule
    answers. *)
Theorem net_worth_overflow_after_update (phone phone' message : string)
    (updates : gmap string value) (b m s l : Z) (d : Server.Disk) (t : datetime) :
  is_ascii phone = true -> is_ascii phone' = true -> is_ascii message = true ->
  json_accepts (finances_of d) = true -> loadable updates ->
  updates !! "bank_balance" = Some (VInt b) ->
  updates !! "mutual_funds" = Some (VInt m) ->
  updates !! "stocks" = Some (VInt s) ->
  updates !! "loan" = Some (VInt l) ->
  PyStr.strip phone' = PyStr.strip phone ->
  Rules.classify (PyStr.lower message) = Some Rules.NetWorth ->
  PyInt.too_long (b + m + s - l) = true ->
  query (request phone' message)
    (world_of (snd (Server.update_finance phone (Some updates) d)) t)
  = Raise ValueError.
Proof.
  intros _ _ _ Ha Hu Hb Hm Hs Hl Hstrip Hc Hlong.
  assert (Hne : updates <> ∅).
  { intros ->. rewrite lookup_empty in Hb. discriminate. }
  apply (query_net_worth_fields _ _ _ b m s l Hc); try exact Hlong;
    rewrite (get_financial_record_updated _ _ _ _ _ Ha Hu Hne Hstrip),
      merge_updates_lookup;
    [rewrite Hb | rewrite Hm | rewrite Hs | rewrite Hl]; reflexivity.
Qed.

Lemma net_worth_overflow_after_update_witness :
  is_ascii starter_phone = true
  /\ is_ascii "What is my net worth?" = true
  /\ PyInt.too_long largest_int = false
  /\ query (request starter_phone "What is my net worth?")
       (world_of
          (snd (Server.update_finance starter_phone
                  (Some (<["stocks" := VInt 0]> (<["loan" := VInt 0]> rich_record)))
                  (Server.startup {| Server.users_file := Server.Missing;
                                     Server.finance_file := Server.Missing |})))
          noon)
     = Raise ValueError.
Proof.
  assert (Hu : loadable (<["stocks" := VInt 0]> (<["loan" := VInt 0]> rich_record))).
  { unfold rich_record.
    repeat (apply loadable_insert; [vm_compute; reflexivity|]). apply loadable_empty. }
  assert (Hlong : PyInt.too_long (largest_int + largest_int + 0 - 0) = true)
    by (vm_compute; reflexivity).
  split; [reflexivity|]. split; [reflexivity|].
  split; [vm_compute; reflexivity|].
  exact (net_worth_overflow_after_update starter_phone starter_phone
           "What is my net worth?" _ largest_int largest_int 0 0
           (Server.startup {| Server.users_file := Server.Missing;
                              Server.finance_file := Server.Missing |})
           noon eq_refl eq_refl eq_refl eq_refl Hu
           eq_refl eq_refl eq_refl eq_refl eq_refl eq_refl Hlong).
Defined.

(* ===================================================================== *)
(** ** The finance document stays readable *)
(* ===================================================================== *)

(** X21. No handler puts into the finance document an integer that
    [json.load] would refuse: if the document is one that [json.load]
    accepts, it still is after start-up, after any [register], and after
    any [update_finance] whose body holds no integer of more than 4300
    digits; [login] and [get_mcp] write nothing. *)
Theorem finance_document_stays_loadable (d : Server.Disk) :
  json_accepts (finances_of d) = true ->
  json_accepts (finances_of (Server.startup d)) = true
  /\ (forall body, json_accepts (finances_of (snd (Server.register body d))) = true)
  /\ (forall phone body,
        loadable (default ∅ body) ->
        json_accepts (finances_of (snd (Server.update_finance phone body d))) = true)
  /\ (forall body, snd (Server.login body d) = d)
  /\ (forall phone, snd (Server.get_mcp phone d) = d).
Proof.
  intros Ha. split; [|split; [|split; [|split]]].
  - destruct d as [u f]. unfold Server.startup.
    destruct u, f; cbn; try exact Ha; reflexivity.
  - intros body. run_server.
    destruct (call_strip (py_or (dict_get (default ∅ body) "name") (VStr "")));
      [|exact Ha].
    destruct (call_strip (py_or (dict_get (default ∅ body) "phone") (VStr "")));
      [|exact Ha].
    destruct (_ || _ || _); [exact Ha|].
    cbn [Server.read]. destruct (bool_decide _); [exact Ha|].
    cbn [Server.read Server.write Server.users_file Server.finance_file snd].
    rewrite finances_of_disk.
    apply json_accepts_setdefault; [exact Ha | exact blank_finance_loadable].
  - intros phone body Hu.
    destruct (decide (default ∅ body = ∅)) as [He | Hne].
    + rewrite (update_finance_no_data phone body d He). exact Ha.
    + destruct body as [updates|]; [|contradiction Hne; reflexivity].
      cbn [default from_option id] in Hne, Hu.
      rewrite (update_finance_spec _ _ _ Hne). cbn [snd].
      rewrite finances_of_disk. apply json_accepts_insert; [exact Ha|].
      rewrite merge_updates_union.
      apply loadable_union; [exact Hu | apply json_accepts_lookup, Ha].
  - intros body. run_server.
    destruct (call_strip _); [|reflexivity].
    repeat match goal with
      | |- context [if ?b then _ else _] => destruct b
      end; reflexivity.
  - intros phone. rewrite get_mcp_spec. reflexivity.
Qed.

Lemma finance_document_stays_loadable_witness :
  json_accepts
    (finances_of
       (snd (Server.update_finance "700100" (Some rich_record)
               (Server.startup {| Server.users_file := Server.Missing;
                                  Server.finance_file := Server.Missing |}))))
  = true.
Proof.
  assert (Hu : loadable (default ∅ (Some rich_record))).
  { unfold rich_record. cbn [default from_option id].
    repeat (apply loadable_insert; [vm_compute; reflexivity|]). apply loadable_empty. }
  assert (Ha : json_accepts
                 (finances_of
                    (Server.startup {| Server.users_file := Server.Missing;
                                       Server.finance_file := Server.Missing |}))
               = true) by reflexivity.
  exact (proj1 (proj2 (proj2 (finance_document_stays_loadable _ Ha)))
           "700100" (Some rich_record) Hu).
Defined.
